(** * ExamSimulator.ai: the quiz pipeline, its session machine and its storage

    A shallow embedding of the TypeScript sources

    - [types.ts]                     (module [Types]),
    - [App.tsx]                      (module [App]),
    - [components/QuizInterface.tsx] (module [QuizInterface]),
    - [services/geminiService.ts]    (module [Service]),
    - [components/FileUpload.tsx]    (module [FileUpload]),
    - [components/SettingsModal.tsx] (module [SettingsModal]),
    - [components/ResultsView.tsx]   (module [ResultsView]),

    followed by the properties of the specification that were checked
    against them.  JavaScript objects whose shape is not guaranteed at run
    time (the settings read back from [localStorage], the parsed answer
    of a provider) are values of [JS.value]; data whose shape the code
    itself builds are records. *)

From stdpp Require Import gmap strings list fin_maps pretty.
From Stdlib Require Import ZArith Ascii.

#[local] Set Warnings "-register-all".
#[local] Open Scope string_scope.
#[local] Open Scope nat_scope.
#[local] Open Scope list_scope.

(** the expected type of a sum reaches the argument of [inr], so that a
    record stands for the value of a wider type it is (see
    [Types.parsedResponse]) *)
#[local] Arguments inr {A B}%_type_scope & _.

(* ===================================================================== *)
(** * JavaScript values *)
(* ===================================================================== *)

Module JS.

(** The values [JSON.parse] can return.  Numbers are kept to the
    integer-valued literals; [undefined] is not a JSON value and is the
    [None] of [option value]. *)
Inductive value : Type :=
  | Null
  | Bool (b : bool)
  | Num (n : Z)
  | Str (s : string)
  | Arr (l : list value)
  | Obj (m : gmap string value).

(** [ToBoolean]: [undefined], [null], [false], [0] and the empty string
    are falsy, every array and object is truthy. *)
Definition truthy (v : option value) : bool :=
  match v with
  | None => false
  | Some Null => false
  | Some (Bool b) => b
  | Some (Num n) => negb (n =? 0)%Z
  | Some (Str s) => negb (String.eqb s "")
  | Some (Arr _) => true
  | Some (Obj _) => true
  end.

(** [a || b] *)
Definition or_else (a b : option value) : option value :=
  if truthy a then a else b.

(** [v.k] on a value that is neither [undefined] nor [null], for a
    property name [k] that is not an index and not a built-in of strings
    or arrays (the settings' field names are the only ones used). *)
Definition get (v : value) (k : string) : option value :=
  match v with
  | Obj m => m !! k
  | _ => None
  end.

(** [v?.k] *)
Definition opt_get (v : option value) (k : string) : option value :=
  match v with
  | None => None
  | Some Null => None
  | Some w => get w k
  end.

(** [v === s] for a string literal [s] *)
Definition is_str (v : option value) (s : string) : bool :=
  match v with
  | Some (Str t) => String.eqb t s
  | _ => false
  end.

(** An array-like as an object: index [i] under the key ["i"]. *)
Definition index_object (l : list value) : gmap string value :=
  list_to_map (imap (fun i v => (pretty i, v)) l).

Fixpoint chars (s : string) : list value :=
  match s with
  | EmptyString => []
  | String c r => Str (String c EmptyString) :: chars r
  end.

(** The own enumerable properties copied by [{...v}]: those of an
    object, the indexed elements of an array or of a string, nothing for
    the other primitives. *)
Definition spread (v : value) : gmap string value :=
  match v with
  | Obj m => m
  | Arr l => index_object l
  | Str s => index_object (chars s)
  | _ => ∅
  end.

(** [{...a, ...b}]: the properties of [b] win. *)
Definition merge (a b : value) : value := Obj (spread b ∪ spread a).

(** [String(v)], which is what a template literal [`${v}`] inserts; an
    array joins its elements with commas, [null] elements as nothing. *)
Fixpoint to_string (v : value) : string :=
  match v with
  | Null => "null"
  | Bool true => "true"
  | Bool false => "false"
  | Num n => pretty n
  | Str s => s
  | Arr l =>
      let element w := match w with Null => "" | _ => to_string w end in
      (fix join (l : list value) : string :=
         match l with
         | [] => ""
         | [w] => element w
         | w :: r => element w +:+ "," +:+ join r
         end) l
  | Obj _ => "[object Object]"
  end.

Definition template (v : option value) : string :=
  match v with
  | None => "undefined"
  | Some w => to_string w
  end.

(** The text kept under a [localStorage] key, as [JSON.parse] sees it:
    the empty string, a text that does not parse, or the text of a
    value ([JSON.stringify] writes the latter, and [JSON.parse] reads
    back the value that was written). *)
Inductive text : Type :=
  | EmptyText
  | Garbled
  | Json (v : value).

Definition JSON_stringify (v : value) : text := Json v.

(** [None] is the [SyntaxError] *)
Definition JSON_parse (t : text) : option value :=
  match t with
  | Json v => Some v
  | _ => None
  end.

(** a string is truthy unless it is empty *)
Definition nonempty (t : text) : bool :=
  match t with
  | EmptyText => false
  | _ => true
  end.

End JS.

(* ===================================================================== *)
(** * types.ts *)
(* ===================================================================== *)

Module Types.

Inductive AppState := UPLOAD | PROCESSING | QUIZ | RESULTS.

Inductive Difficulty := EASY | MEDIUM | HARD.

Definition Difficulty_str (d : Difficulty) : string :=
  match d with
  | EASY => "Easy"
  | MEDIUM => "Medium"
  | HARD => "Hard"
  end.

Module Question.
Record t := mk {
  id : nat;
  text : string;
  options : list string;
  correctAnswerIndex : Z;
  explanation : string
}.
End Question.

Module QuizResult.
Record t := mk {
  score : nat;
  total : nat;
  userAnswers : list Z;
  questions : list Question.t
}.
End QuizResult.

(** an element of [GeneratedQuizResponse.questions] *)
Module Generated.
Record t := mk {
  questionText : string;
  options : list string;
  correctAnswerIndex : Z;
  explanation : string
}.
End Generated.

Module GeneratedQuizResponse.
Record t := mk { questions : list Generated.t }.
End GeneratedQuizResponse.

Inductive AIProvider := gemini | openai.

Definition AIProvider_str (p : AIProvider) : string :=
  match p with
  | gemini => "gemini"
  | openai => "openai"
  end.

Module GeminiSettings.
Record t := mk { apiKey : string }.
End GeminiSettings.

Module OpenAISettings.
Record t := mk { baseUrl : string; apiKey : string; model : string }.
End OpenAISettings.

Module AISettings.
Record t := mk {
  provider : AIProvider;
  gemini : GeminiSettings.t;
  openai : OpenAISettings.t
}.
End AISettings.

Module QuizHistoryItem.
Record t := mk {
  id : string;
  fileName : string;
  date : string;
  difficulty : Difficulty;
  questions : list Question.t
}.
End QuizHistoryItem.

(** ** The JavaScript objects these records are *)

Definition obj (l : list (string * JS.value)) : JS.value :=
  JS.Obj (list_to_map l).

Definition js_gemini (g : GeminiSettings.t) : JS.value :=
  obj [("apiKey", JS.Str (GeminiSettings.apiKey g))].

Definition js_openai (o : OpenAISettings.t) : JS.value :=
  obj [("baseUrl", JS.Str (OpenAISettings.baseUrl o));
       ("apiKey", JS.Str (OpenAISettings.apiKey o));
       ("model", JS.Str (OpenAISettings.model o))].

Definition js_settings (s : AISettings.t) : JS.value :=
  obj [("provider", JS.Str (AIProvider_str (AISettings.provider s)));
       ("gemini", js_gemini (AISettings.gemini s));
       ("openai", js_openai (AISettings.openai s))].

Definition js_question (q : Question.t) : JS.value :=
  obj [("id", JS.Num (Z.of_nat (Question.id q)));
       ("text", JS.Str (Question.text q));
       ("options", JS.Arr (JS.Str <$> Question.options q));
       ("correctAnswerIndex", JS.Num (Question.correctAnswerIndex q));
       ("explanation", JS.Str (Question.explanation q))].

Definition js_history_item (h : QuizHistoryItem.t) : JS.value :=
  obj [("id", JS.Str (QuizHistoryItem.id h));
       ("fileName", JS.Str (QuizHistoryItem.fileName h));
       ("date", JS.Str (QuizHistoryItem.date h));
       ("difficulty", JS.Str (Difficulty_str (QuizHistoryItem.difficulty h)));
       ("questions", JS.Arr (js_question <$> QuizHistoryItem.questions h))].

Definition js_history (l : list QuizHistoryItem.t) : JS.value :=
  JS.Arr (js_history_item <$> l).

Definition js_generated (q : Generated.t) : JS.value :=
  obj [("questionText", JS.Str (Generated.questionText q));
       ("options", JS.Arr (JS.Str <$> Generated.options q));
       ("correctAnswerIndex", JS.Num (Generated.correctAnswerIndex q));
       ("explanation", JS.Str (Generated.explanation q))].

Definition js_response (r : GeneratedQuizResponse.t) : JS.value :=
  obj [("questions", JS.Arr (js_generated <$> GeneratedQuizResponse.questions r))].

(** ** What the cast [JSON.parse(...) as GeneratedQuizResponse] lets through *)

Definition is_null (v : JS.value) : bool :=
  match v with
  | JS.Null => true
  | _ => false
  end.

(** Whether [response.questions.map((q, idx) => ({id: idx, text:
    q.questionText, ...}))] throws on a value [JSON.parse] returned.
    Reading [.questions] of [null] throws; of any other value it gives
    the property, or [undefined].  Calling [.map] on that throws unless
    it is an array: [undefined] and [null] have no properties, and the
    [map] of a number, a string, a boolean or an object of [JSON.parse]
    is [undefined], which is not a function.  The callback reads four
    properties of each element, which throws on a [null] element and on
    no other. *)
Definition mapThrows (response : JS.value) : bool :=
  match response with
  | JS.Null => true
  | _ =>
      match JS.get response "questions" with
      | Some (JS.Arr records) => existsb is_null records
      | _ => true
      end
  end.

(** What the awaited service call hands to the handler.  The cast checks
    nothing, so the value is one of the declared type or any other value
    [JSON.parse] can return; of the latter, the type holds every value
    on which the handler's [response.questions.map] throws.  (An array
    of records whose fields are of other types than the declared ones is
    mapped without a throw into questions with such fields, which the
    typed [Question.t] of the component's state does not hold; these
    values are not represented.) *)
Inductive parsedResponse :=
  | Declared (r : GeneratedQuizResponse.t)
  | Unmappable (v : JS.value) (H : mapThrows v = true).

Coercion Declared : GeneratedQuizResponse.t >-> parsedResponse.

End Types.

(* ===================================================================== *)
(** * App.tsx *)
(* ===================================================================== *)

Module App.
Import Types.

Definition DEFAULT_SETTINGS : AISettings.t :=
  AISettings.mk gemini
    (GeminiSettings.mk "")
    (OpenAISettings.mk "https://api.openai.com/v1" "" "gpt-4o").

(** The component's state cells and the browser's [localStorage].
    [aiSettings] is a JavaScript value: after the mount effect it is
    whatever the merge of the defaults with the stored object gives. *)
Record state := mk {
  appState : AppState;
  questions : list Question.t;
  result : option QuizResult.t;
  aiSettings : JS.value;
  history : list QuizHistoryItem.t;
  localStorage : gmap string JS.text
}.

Definition initial (store : gmap string JS.text) : state :=
  mk UPLOAD [] None (js_settings DEFAULT_SETTINGS) [] store.

Definition setAppState (a : AppState) (st : state) : state :=
  mk a (questions st) (result st) (aiSettings st) (history st) (localStorage st).
Definition setQuestions (q : list Question.t) (st : state) : state :=
  mk (appState st) q (result st) (aiSettings st) (history st) (localStorage st).
Definition setResult (r : option QuizResult.t) (st : state) : state :=
  mk (appState st) (questions st) r (aiSettings st) (history st) (localStorage st).
Definition setAiSettings (s : JS.value) (st : state) : state :=
  mk (appState st) (questions st) (result st) s (history st) (localStorage st).
Definition setHistory (h : list QuizHistoryItem.t) (st : state) : state :=
  mk (appState st) (questions st) (result st) (aiSettings st) h (localStorage st).
Definition setItem (k : string) (t : JS.text) (st : state) : state :=
  mk (appState st) (questions st) (result st) (aiSettings st) (history st)
     (<[k := t]> (localStorage st)).

(** The settings half of the mount effect: [JSON.parse] of the stored
    text, spread over the defaults; a missing key, an empty text and a
    text that does not parse leave the state as it is. *)
Definition loadSettings (st : state) : state :=
  match localStorage st !! "exam_simulator_settings" with
  | Some savedSettings =>
      if JS.nonempty savedSettings then
        match JS.JSON_parse savedSettings with
        | Some parsed =>
            setAiSettings (JS.merge (js_settings DEFAULT_SETTINGS) parsed) st
        | None => st
        end
      else st
  | None => st
  end.

Definition handleSaveSettings (newSettings : JS.value) (st : state) : state :=
  setItem "exam_simulator_settings" (JS.JSON_stringify newSettings)
    (setAiSettings newSettings st).

(** [Date.now()] and [new Date().toISOString()] at the call *)
Record clock := { now : Z; iso : string }.

Definition saveToHistory (c : clock) (fileName : string) (difficulty : Difficulty)
    (questions : list Question.t) (st : state) : state :=
  let newItem :=
    QuizHistoryItem.mk (pretty (now c)) fileName (iso c) difficulty questions in
  let updatedHistory := take 20 (newItem :: history st) in
  setItem "exam_simulator_history" (JS.JSON_stringify (js_history updatedHistory))
    (setHistory updatedHistory st).

Definition handleDeleteHistory (id : string) (st : state) : state :=
  let updatedHistory :=
    filter (fun item => QuizHistoryItem.id item ≠ id) (history st) in
  setItem "exam_simulator_history" (JS.JSON_stringify (js_history updatedHistory))
    (setHistory updatedHistory st).

(** [response.questions.map((q, idx) => ({id: idx, ...}))] *)
Definition mapQuestions (response : GeneratedQuizResponse.t) : list Question.t :=
  imap (fun idx q =>
          Question.mk idx (Generated.questionText q) (Generated.options q)
            (Generated.correctAnswerIndex q) (Generated.explanation q))
       (GeneratedQuizResponse.questions response).

(** [handleGenerateQuiz] once the awaited service call has settled:
    [inl message] is the rejection caught by the handler.  The mapping
    is inside the [try]: when it throws, nothing has been set or saved
    yet, and the [catch] puts the upload screen back as it does for a
    rejection. *)
Definition handleGenerateQuiz (c : clock) (fileName : string) (difficulty : Difficulty)
    (settled : string + parsedResponse) (st : state) : state :=
  match settled with
  | inr (Declared response) =>
      let mappedQuestions := mapQuestions response in
      setAppState QUIZ
        (saveToHistory c fileName difficulty mappedQuestions
           (setQuestions mappedQuestions st))
  | inr (Unmappable _ _) => setAppState UPLOAD st
  | inl _ => setAppState UPLOAD st
  end.

Definition handleLoadFromHistory (item : QuizHistoryItem.t) (st : state) : state :=
  setAppState QUIZ (setQuestions (QuizHistoryItem.questions item) st).

(** [userAnswers.reduce((acc, answer, idx) => ..., 0)]; [None] is the
    [TypeError] of [questions[idx].correctAnswerIndex] on an index the
    question list does not have. *)
Fixpoint reduce_score (questions : list Question.t) (idx : nat)
    (userAnswers : list Z) (acc : nat) : option nat :=
  match userAnswers with
  | [] => Some acc
  | answer :: rest =>
      match questions !! idx with
      | Some q =>
          reduce_score questions (S idx) rest
            (if (answer =? Question.correctAnswerIndex q)%Z then acc + 1 else acc)
      | None => None
      end
  end.

Definition quizResult (questions : list Question.t) (userAnswers : list Z)
    : option QuizResult.t :=
  match reduce_score questions 0 userAnswers 0 with
  | Some score =>
      Some (QuizResult.mk score (length questions) userAnswers questions)
  | None => None
  end.

Definition handleQuizComplete (userAnswers : list Z) (st : state) : option state :=
  match quizResult (questions st) userAnswers with
  | Some r => Some (setAppState RESULTS (setResult (Some r) st))
  | None => None
  end.

Definition handleReset (st : state) : state :=
  setResult None (setQuestions [] (setAppState UPLOAD st)).

(** ** Handler calls in any order *)

Inductive event :=
  | SaveSettings (newSettings : JS.value)
  | GenerateQuiz (c : clock) (fileName : string) (difficulty : Difficulty)
      (settled : string + parsedResponse)
  | DeleteHistory (id : string)
  | LoadFromHistory (item : QuizHistoryItem.t)
  | QuizComplete (userAnswers : list Z)
  | Reset.

(** one handler call; when the scoring throws, no state cell has been
    set yet *)
Definition handle (e : event) (st : state) : state :=
  match e with
  | SaveSettings newSettings => handleSaveSettings newSettings st
  | GenerateQuiz c fileName difficulty settled =>
      handleGenerateQuiz c fileName difficulty settled st
  | DeleteHistory id => handleDeleteHistory id st
  | LoadFromHistory item => handleLoadFromHistory item st
  | QuizComplete userAnswers =>
      match handleQuizComplete userAnswers st with
      | Some st' => st'
      | None => st
      end
  | Reset => handleReset st
  end.

Definition run (es : list event) (st : state) : state :=
  foldl (fun st e => handle e st) st es.

End App.

(* ===================================================================== *)
(** * components/QuizInterface.tsx *)
(* ===================================================================== *)

Module QuizInterface.
Import Types.

Record state := mk {
  currentIndex : nat;
  selectedAnswers : list Z;
  showExplanation : bool
}.

(** [useState(0)], [useState(new Array(questions.length).fill(-1))],
    [useState(false)] *)
Definition initial (questions : list Question.t) : state :=
  mk 0 (replicate (length questions) (-1)%Z) false.

Definition currentQuestion (questions : list Question.t) (s : state)
    : option Question.t :=
  questions !! currentIndex s.

(** [currentIndex === questions.length - 1] *)
Definition isLastQuestion (questions : list Question.t) (s : state) : bool :=
  (Z.of_nat (currentIndex s) =? Z.of_nat (length questions) - 1)%Z.

(** [selectedAnswers[currentIndex] !== -1]; past the end of the array the
    element is [undefined], which is not [-1]. *)
Definition hasAnsweredCurrent (s : state) : bool :=
  match selectedAnswers s !! currentIndex s with
  | Some a => negb (a =? -1)%Z
  | None => true
  end.

(** The handler is only ever called with the index of a rendered option
    button, a natural number.  The write is in range whenever it
    happens: the guard has read [-1] at [currentIndex]. *)
Definition handleOptionSelect (optionIndex : nat) (s : state) : state :=
  if hasAnsweredCurrent s then s
  else mk (currentIndex s)
          (<[currentIndex s := Z.of_nat optionIndex]> (selectedAnswers s))
          true.

(** What [handleNext] does: call [onComplete] with the answers, or move
    to the next question. *)
Inductive outcome :=
  | Continue (s : state)
  | Complete (userAnswers : list Z).

Definition handleNext (questions : list Question.t) (s : state) : outcome :=
  if isLastQuestion questions s then Complete (selectedAnswers s)
  else Continue (mk (currentIndex s + 1) (selectedAnswers s) false).

(** The render reads [currentQuestion.text]: with no question at
    [currentIndex] it throws. *)
Definition renders (questions : list Question.t) (s : state) : bool :=
  bool_decide (is_Some (currentQuestion questions s)).

(** [disabled={hasAnsweredCurrent}] on every option button, and one
    button per option of the current question. *)
Definition optionEnabled (questions : list Question.t) (s : state) (idx : nat) : bool :=
  match currentQuestion questions s with
  | Some q => bool_decide (idx < length (Question.options q)) && negb (hasAnsweredCurrent s)
  | None => false
  end.

(** [disabled={!hasAnsweredCurrent}] on the Next / Finish button *)
Definition nextEnabled (s : state) : bool := hasAnsweredCurrent s.

(** ** Handler calls in any order *)

Inductive event :=
  | OptionSelect (optionIndex : nat)
  | Next.

Definition handle (questions : list Question.t) (e : event) (s : state) : outcome :=
  match e with
  | OptionSelect optionIndex => Continue (handleOptionSelect optionIndex s)
  | Next => handleNext questions s
  end.

(** the handlers called one after the other, up to [onComplete] *)
Fixpoint run (questions : list Question.t) (es : list event) (s : state) : outcome :=
  match es with
  | [] => Continue s
  | e :: rest =>
      match handle questions e s with
      | Continue s' => run questions rest s'
      | Complete userAnswers => Complete userAnswers
      end
  end.

(** the answers an outcome holds *)
Definition answers (o : outcome) : list Z :=
  match o with
  | Continue s => selectedAnswers s
  | Complete userAnswers => userAnswers
  end.

(** ** The session as the specification names it *)

Inductive session :=
  | Active (s : state)
  | Completed (r : QuizResult.t)
  | Crashed.

(** [selectOption(k)]: the option handler *)
Definition selectOption (k : nat) (x : session) : session :=
  match x with
  | Active s => Active (handleOptionSelect k s)
  | _ => x
  end.

(** [advance]: a click on the Next button.  [None]: the button is
    disabled, the click is not delivered.  On the last question the
    parent's [handleQuizComplete] builds the result. *)
Definition advance (questions : list Question.t) (x : session) : option session :=
  match x with
  | Active s =>
      if nextEnabled s then
        match handleNext questions s with
        | Continue s' =>
            Some (if renders questions s' then Active s' else Crashed)
        | Complete userAnswers =>
            match App.quizResult questions userAnswers with
            | Some r => Some (Completed r)
            | None => Some Crashed
            end
        end
      else None
  | _ => None
  end.

(** one [selectOption(k)] then [advance] cycle per element of [ks] *)
Fixpoint cycles (questions : list Question.t) (ks : list nat) (x : session)
    : option session :=
  match ks with
  | [] => Some x
  | k :: rest =>
      match advance questions (selectOption k x) with
      | Some x' => cycles questions rest x'
      | None => None
      end
  end.

(** the session a mounted component starts in *)
Definition start (questions : list Question.t) : session :=
  if renders questions (initial questions) then Active (initial questions)
  else Crashed.

(** ** Clicks on the rendered buttons *)

(** a click reaches its handler only when the button exists and is not
    disabled *)
Definition click (questions : list Question.t) (e : event) (s : state) : outcome :=
  match e with
  | OptionSelect idx =>
      if optionEnabled questions s idx then Continue (handleOptionSelect idx s)
      else Continue s
  | Next => if nextEnabled s then handleNext questions s else Continue s
  end.

Fixpoint uiRun (questions : list Question.t) (es : list event) (s : state) : outcome :=
  match es with
  | [] => Continue s
  | e :: rest =>
      match click questions e s with
      | Continue s' => uiRun questions rest s'
      | Complete userAnswers => Complete userAnswers
      end
  end.

End QuizInterface.

(* ===================================================================== *)
(** * services/geminiService.ts *)
(* ===================================================================== *)

Module Service.
Import Types.

Definition SYSTEM_INSTRUCTION : string := "
You are a rigorous exam generation AI. Your goal is to create a comprehensive exam that covers 100% of the provided study material. 
Do not summarize or skip details. You must verify knowledge on every section, list, diagram, and key fact presented in the content.
Ensure distractors (wrong answers) are plausible and difficult to distinguish for someone who hasn't studied the material closely.
".

Definition PROMPT_TEMPLATE (difficulty : Difficulty) : string :=
  "
    TASK: Create a comprehensive exam based on the attached content.
    
    CRITICAL INSTRUCTION: Cover ALL parts of the source material. Do not skip any section, paragraph, or bullet point.
    
    1. Analyze the content sentence by sentence.
    2. Identify every distinct fact, concept, definition, and rule.
    3. Generate a multiple-choice question for EACH identified piece of information.
    
    DENSITY:
    - You must generate enough questions to ensure that a student who passes this exam has read and understood the ENTIRE document.
    - Do not limit yourself arbitrarily. If the document is dense, generate as many questions as needed (up to 50+) to cover everything.
    - If the document is short, ensure every sentence is tested.
    
    DIFFICULTY: " +:+ Difficulty_str difficulty +:+ ". 
    - For 'Hard', focus on nuance, application of concepts, and connecting multiple facts.
    
    OUTPUT FORMAT:
    - Strictly JSON matching the schema.
    - Each question must have exactly 4 options.
    - Explanation must quote or reference the specific part of the text the answer comes from.
".

(** ** What the code calls and does not define *)

(** a loaded PDF: [getPage i] is the [str] of the text items of page
    [i], or [None] when [getPage] or [getTextContent] rejects *)
Record PdfDocument := {
  numPages : nat;
  getPage : nat -> option (list string)
}.

(** the text a provider answered with, as the final
    [JSON.parse(...) as GeneratedQuizResponse] sees it; the cast checks
    nothing, so a text that parses is returned whatever it parses to *)
Inductive payload :=
  | Unparsable
  | Parses (r : parsedResponse).

(** how [fetch] and the reading of its response settle *)
Inductive fetched :=
  | NetworkError (message : string)
  | NotOk (errorMessage : option string)
  | Ok (content : option payload).

Record GeminiRequest := {
  g_apiKey : JS.value;
  g_model : string;
  g_mimeType : string;
  g_data : string;
  g_text : string;
  g_systemInstruction : string;
  g_responseMimeType : string
}.

Record FetchRequest := {
  url : string;
  method : string;
  headers : list (string * string);
  body : JS.text
}.

(** [inl message] is a thrown [Error] throughout *)
Record externals := {
  API_KEY : option string;
  atob : string -> string + string;
  getDocument : string -> string + PdfDocument;
  generateContent : GeminiRequest -> string + option payload;
  fetch : FetchRequest -> fetched
}.

(** ** Dispatch *)

Inductive dispatch :=
  | generateWithGemini_of (settings : option JS.value)
  | generateWithOpenAI_of (config : option JS.value)
  | DispatchTypeError.

Definition generateQuizFromContent_dispatch (settings : option JS.value) : dispatch :=
  let provider := JS.or_else (JS.opt_get settings "provider") (Some (JS.Str "gemini")) in
  if JS.is_str provider "gemini" then generateWithGemini_of settings
  else
    match settings with
    | None | Some JS.Null => DispatchTypeError
    | Some w => generateWithOpenAI_of (JS.get w "openai")
    end.

(** ** The Gemini adapter *)

(** [settings?.gemini?.apiKey || process.env.API_KEY] *)
Definition geminiApiKey (env_key : option string) (settings : option JS.value)
    : option JS.value :=
  JS.or_else (JS.opt_get (JS.opt_get settings "gemini") "apiKey")
             (JS.Str <$> env_key).

Definition parsed (text : option payload) (none : string)
    : string + parsedResponse :=
  match text with
  | None => inl none
  | Some Unparsable => inl "SyntaxError"
  | Some (Parses r) => inr r
  end.

Definition generateWithGemini (x : externals) (base64Data mimeType : string)
    (difficulty : Difficulty) (settings : option JS.value)
    : string + parsedResponse :=
  let apiKey := geminiApiKey (API_KEY x) settings in
  if negb (JS.truthy apiKey) then
    inl "Missing Gemini API Key. Please provide one in settings or configure the environment."
  else
    match apiKey with
    | None => inl "Missing Gemini API Key. Please provide one in settings or configure the environment."
    | Some key =>
        match generateContent x
                {| g_apiKey := key; g_model := "gemini-2.5-flash";
                   g_mimeType := mimeType; g_data := base64Data;
                   g_text := PROMPT_TEMPLATE difficulty;
                   g_systemInstruction := SYSTEM_INSTRUCTION;
                   g_responseMimeType := "application/json" |} with
        | inl message => inl message
        | inr text => parsed text "No response generated from Gemini."
        end
    end.

(** ** PDF text extraction *)

(** [items.join(sep)] *)
Fixpoint join (sep : string) (items : list string) : string :=
  match items with
  | [] => ""
  | [item] => item
  | item :: rest => item +:+ sep +:+ join sep rest
  end.

(** the white space and line terminators of the ASCII range, which
    [String.prototype.trim] strips *)
Definition is_space (c : ascii) : bool :=
  let n := nat_of_ascii c in
  ((n =? 9) || (n =? 10) || (n =? 11) || (n =? 12) || (n =? 13) || (n =? 32))%nat.

Fixpoint trimStart (s : string) : string :=
  match s with
  | EmptyString => EmptyString
  | String c r => if is_space c then trimStart r else s
  end.

Definition trim (s : string) : string :=
  String.rev (trimStart (String.rev (trimStart s))).

(** [message.includes(needle)] *)
Definition includes (needle message : string) : bool :=
  match String.index 0 needle message with
  | Some _ => true
  | None => false
  end.

Definition LF : string := String (ascii_of_nat 10) EmptyString.

(** what one turn of the page loop appends to [fullText] *)
Definition pageChunk (pdf : PdfDocument) (i : nat) : string :=
  match getPage pdf i with
  | Some items =>
      "--- PAGE " +:+ pretty i +:+ " ---" +:+ LF +:+ join " " items +:+ LF +:+ LF
  | None =>
      "--- PAGE " +:+ pretty i +:+ " (Extraction Failed) ---" +:+ LF +:+ LF
  end.

(** [for (let i = ...; i <= totalPages; i++) { fullText += ... }] with
    [remaining] turns to go *)
Fixpoint pageLoop (pdf : PdfDocument) (remaining i : nat) (fullText : string) : string :=
  match remaining with
  | 0 => fullText
  | S remaining' => pageLoop pdf remaining' (S i) (fullText +:+ pageChunk pdf i)
  end.

(** the outer [catch]: the message of the error it throws in turn *)
Definition rethrown (message : string) : string :=
  if includes "Worker" message then
    "PDF Worker failed to initialize. Please refresh or try a different browser."
  else if String.eqb message "" then "Failed to extract text from PDF."
  else message.

Definition extractTextFromPdf (x : externals) (base64Data : string) : string + string :=
  match atob x base64Data with
  | inl message => inl (rethrown message)
  | inr bytes =>
      match getDocument x bytes with
      | inl message => inl (rethrown ("Could not load PDF document. " +:+ message))
      | inr pdf =>
          let fullText := pageLoop pdf (numPages pdf) 1 "" in
          if String.eqb (trim fullText) "" then
            inl (rethrown "PDF appears to be empty or contains only scanned images without text layer.")
          else inr fullText
      end
  end.

(** ** The OpenAI-compatible adapter *)

Definition textPart (text : string) : JS.value :=
  obj [("type", JS.Str "text"); ("text", JS.Str text)].

(** [userContent], or the error thrown while building it *)
Definition userContent (x : externals) (base64Data mimeType : string)
    (difficulty : Difficulty) : string + list JS.value :=
  let promptText := PROMPT_TEMPLATE difficulty in
  if String.eqb mimeType "application/pdf" then
    match extractTextFromPdf x base64Data with
    | inl message => inl message
    | inr extractedText => inr [textPart extractedText; textPart promptText]
    end
  else if String.prefix "image/" mimeType then
    inr [obj [("type", JS.Str "image_url");
              ("image_url",
               obj [("url", JS.Str ("data:" +:+ mimeType +:+ ";base64," +:+ base64Data))])];
         textPart promptText]
  else
    match atob x base64Data with
    | inl message => inl message
    | inr textContent => inr [textPart textContent; textPart promptText]
    end.

(** the request handed to [fetch] *)
Definition openAIRequest (config : option JS.value) (content : list JS.value)
    : FetchRequest :=
  let messages :=
    JS.Arr [obj [("role", JS.Str "system"); ("content", JS.Str SYSTEM_INSTRUCTION)];
            obj [("role", JS.Str "user"); ("content", JS.Arr content)]] in
  {| url := "https://api.openai.com/v1/chat/completions";
     method := "POST";
     headers :=
       [("Authorization", "Bearer " +:+ JS.template (JS.opt_get config "apiKey"));
        ("Content-Type", "application/json")];
     body :=
       JS.JSON_stringify
         (JS.Obj
            (list_to_map
               (match JS.or_else (JS.opt_get config "model") (Some (JS.Str "gpt-4o")) with
                | Some model => [("model", model)]
                | None => []
                end ++
                [("messages", messages);
                 ("response_format", obj [("type", JS.Str "json_object")])]))) |}.

Definition generateWithOpenAI (x : externals) (base64Data mimeType : string)
    (difficulty : Difficulty) (config : option JS.value)
    : string + parsedResponse :=
  match userContent x base64Data mimeType difficulty with
  | inl message => inl message
  | inr content =>
      match fetch x (openAIRequest config content) with
      | NetworkError message => inl message
      | NotOk (Some message) =>
          inl (if String.eqb message "" then "OpenAI API request failed" else message)
      | NotOk None => inl "OpenAI API request failed"
      | Ok content => parsed content "No response generated from OpenAI."
      end
  end.

Definition generateQuizFromContent (x : externals) (base64Data mimeType : string)
    (difficulty : Difficulty) (settings : option JS.value)
    : string + parsedResponse :=
  match generateQuizFromContent_dispatch settings with
  | generateWithGemini_of settings' =>
      generateWithGemini x base64Data mimeType difficulty settings'
  | generateWithOpenAI_of config =>
      generateWithOpenAI x base64Data mimeType difficulty config
  | DispatchTypeError => inl "TypeError"
  end.

(** the requests [generateWithOpenAI] hands to [fetch] *)
Definition sentRequest (x : externals) (base64Data mimeType : string)
    (difficulty : Difficulty) (config : option JS.value) : option FetchRequest :=
  match userContent x base64Data mimeType difficulty with
  | inl _ => None
  | inr content => Some (openAIRequest config content)
  end.

(** the request [generateWithGemini] hands to the client for a key *)
Definition geminiRequest (key : JS.value) (base64Data mimeType : string)
    (difficulty : Difficulty) : GeminiRequest :=
  {| g_apiKey := key; g_model := "gemini-2.5-flash"; g_mimeType := mimeType;
     g_data := base64Data; g_text := PROMPT_TEMPLATE difficulty;
     g_systemInstruction := SYSTEM_INSTRUCTION;
     g_responseMimeType := "application/json" |}.

(** the image part of the user content *)
Definition imagePart (base64Data mimeType : string) : JS.value :=
  obj [("type", JS.Str "image_url");
       ("image_url",
        obj [("url", JS.Str ("data:" +:+ mimeType +:+ ";base64," +:+ base64Data))])].

End Service.

(* ===================================================================== *)
(** * components/FileUpload.tsx *)
(* ===================================================================== *)

Module FileUpload.
Import Types.

(** what the component reads of a [File] *)
Record File := { name : string; size : N; type : string }.

Record state := mk {
  dragActive : bool;
  file : option File;
  error : option string;
  difficulty : Difficulty
}.

Definition initial : state := mk false None None MEDIUM.

Definition setDragActive (b : bool) (st : state) : state :=
  mk b (file st) (error st) (difficulty st).
Definition setFile (f : option File) (st : state) : state :=
  mk (dragActive st) f (error st) (difficulty st).
Definition setError (e : option string) (st : state) : state :=
  mk (dragActive st) (file st) e (difficulty st).
Definition setDifficulty (d : Difficulty) (st : state) : state :=
  mk (dragActive st) (file st) (error st) d.

Definition handleDrag (eventType : string) (st : state) : state :=
  if String.eqb eventType "dragenter" || String.eqb eventType "dragover"
  then setDragActive true st
  else if String.eqb eventType "dragleave" then setDragActive false st
  else st.

Definition validTypes : list string :=
  ["application/pdf"; "text/plain"; "image/jpeg"; "image/png"; "image/webp"].

(** [validTypes.includes(t)] *)
Definition includes (types : list string) (t : string) : bool :=
  existsb (String.eqb t) types.

Definition validateFile (f : File) (st : state) : bool * state :=
  if (5 * 1024 * 1024 <? size f)%N then
    (false, setError (Some "File size too large. Max 5MB.") st)
  else if negb (includes validTypes (type f)) then
    (false, setError (Some "Unsupported file type. Please upload PDF, TXT, or Image.") st)
  else (true, st).

(** the part shared by [handleDrop] and [handleChange]: the first file of
    the list, if there is one, is kept when it is valid *)
Definition take_first (files : list File) (st : state) : state :=
  match files with
  | f :: _ =>
      let (ok, st') := validateFile f st in
      if ok then setFile (Some f) st' else st'
  | [] => st
  end.

Definition handleDrop (files : list File) (st : state) : state :=
  take_first files (setError None (setDragActive false st)).

Definition handleChange (files : list File) (st : state) : state :=
  take_first files (setError None st).

(** [s.split(sep)] for a separator of one character *)
Fixpoint split (sep : ascii) (s : string) : list string :=
  match s with
  | EmptyString => [EmptyString]
  | String c r =>
      if Ascii.eqb c sep then EmptyString :: split sep r
      else
        match split sep r with
        | h :: t => String c h :: t
        | [] => [String c EmptyString]
        end
  end.

(** how the [FileReader] settles: [onerror], or [onload] with the data
    URL in [reader.result] *)
Inductive read :=
  | ReadError
  | ReadOk (result : string).

(** what [handleSubmit] ends in: nothing, the state with an error, or the
    call [onGenerate(file, base64Content, difficulty)], whose second
    argument is [undefined] when the result holds no comma *)
Inductive submitted :=
  | Nothing
  | Failed (st : state)
  | Generate (f : File) (base64Content : option string) (d : Difficulty).

Definition handleSubmit (r : read) (st : state) : submitted :=
  match file st with
  | None => Nothing
  | Some f =>
      match r with
      | ReadOk base64String =>
          Generate f (split "," base64String !! 1) (difficulty st)
      | ReadError => Failed (setError (Some "Failed to read file.") st)
      end
  end.

(** ** Handler calls in any order *)

Inductive event :=
  | Drag (eventType : string)
  | Drop (files : list File)
  | Change (files : list File)
  | Difficulty_ (d : Difficulty).

Definition handle (e : event) (st : state) : state :=
  match e with
  | Drag eventType => handleDrag eventType st
  | Drop files => handleDrop files st
  | Change files => handleChange files st
  | Difficulty_ d => setDifficulty d st
  end.

Definition run (es : list event) (st : state) : state :=
  foldl (fun st e => handle e st) st es.

End FileUpload.

(* ===================================================================== *)
(** * components/SettingsModal.tsx *)
(* ===================================================================== *)

Module SettingsModal.

(** [{...v}] of a property that may be missing *)
Definition spread_opt (v : option JS.value) : gmap string JS.value :=
  match v with
  | Some w => JS.spread w
  | None => ∅
  end.

(** the updater [handleChange] hands to [setFormData], for the input
    named [name] holding [value] *)
Definition handleChange (name value : string) (prev : JS.value) : JS.value :=
  if String.eqb name "provider" then
    JS.Obj (<["provider" := JS.Str value]> (JS.spread prev))
  else if String.eqb name "geminiApiKey" then
    JS.Obj (<["gemini" :=
                JS.Obj (<["apiKey" := JS.Str value]> (spread_opt (JS.get prev "gemini")))]>
              (JS.spread prev))
  else
    JS.Obj (<["openai" :=
                JS.Obj (<[name := JS.Str value]> (spread_opt (JS.get prev "openai")))]>
              (JS.spread prev)).

(** the form after a sequence of input changes, starting from the
    settings the modal was opened with *)
Definition edit (changes : list (string * string)) (settings : JS.value) : JS.value :=
  foldl (fun formData change => handleChange change.1 change.2 formData) settings changes.

(** [handleSave]: [onSave(formData)], which is the parent's
    [handleSaveSettings] *)
Definition handleSave (formData : JS.value) (app : App.state) : App.state :=
  App.handleSaveSettings formData app.

End SettingsModal.

(* ===================================================================== *)
(** * components/ResultsView.tsx *)
(* ===================================================================== *)

Module ResultsView.
Import Types.

(** [result.userAnswers[idx] === q.correctAnswerIndex]; a missing answer
    is [undefined], equal to no index *)
Definition isCorrect (result : QuizResult.t) (idx : nat) (q : Question.t) : bool :=
  match QuizResult.userAnswers result !! idx with
  | Some userAnswer => (userAnswer =? Question.correctAnswerIndex q)%Z
  | None => false
  end.

(** the Correct / Incorrect badge of each question of the detailed review *)
Definition review (result : QuizResult.t) : list bool :=
  imap (isCorrect result) (QuizResult.questions result).

(** the two slices of the chart *)
Definition data (result : QuizResult.t) : list (string * Z) :=
  [("Correct", Z.of_nat (QuizResult.score result));
   ("Incorrect", (Z.of_nat (QuizResult.total result) - Z.of_nat (QuizResult.score result))%Z)].

End ResultsView.

(* ===================================================================== *)
(** * The score as the specification words it *)
(* ===================================================================== *)

Module Scoring.
Import Types.

(** index [i] holds a recorded answer equal to the correct-answer index
    of question [i] *)
Definition correctAt (questions : list Question.t) (userAnswers : list Z)
    (i : nat) : bool :=
  match userAnswers !! i, questions !! i with
  | Some answer, Some q => (answer =? Question.correctAnswerIndex q)%Z
  | _, _ => false
  end.

(** the indices that count *)
Definition correctIndices (questions : list Question.t) (userAnswers : list Z)
    : list nat :=
  filter (fun i => correctAt questions userAnswers i = true)
         (seq 0 (length questions)).

End Scoring.

(* ===================================================================== *)
(** * The extracted text as the specification words it *)
(* ===================================================================== *)

Module Pages.
Import Service.

Definition pageMarker (n : nat) : string := "--- PAGE " +:+ pretty n +:+ " ---".

Definition failedMarker (n : nat) : string :=
  "--- PAGE " +:+ pretty n +:+ " (Extraction Failed) ---".

(** a page's text after its marker, or the failure marker in its place *)
Definition expectedPage (pdf : PdfDocument) (n : nat) : string :=
  match getPage pdf n with
  | Some items => pageMarker n +:+ LF +:+ join " " items +:+ LF +:+ LF
  | None => failedMarker n +:+ LF +:+ LF
  end.

(** pages 1 to [numPages], in page order *)
Definition expectedText (pdf : PdfDocument) : string :=
  foldr (fun n rest => expectedPage pdf n +:+ rest) "" (seq 1 (numPages pdf)).

End Pages.

(* ===================================================================== *)
(** * Concrete inputs used in the examples below *)
(* ===================================================================== *)

Module Samples.
Import Types.

(** a response whose record has three options and correct-answer index 7 *)
Definition threeOptions : GeneratedQuizResponse.t :=
  GeneratedQuizResponse.mk [Generated.mk "Q" ["a"; "b"; "c"] 7 "E"].

Definition noon : App.clock :=
  {| App.now := 1730000000000; App.iso := "2024-10-27T03:33:20.000Z" |}.

(** a browser with a key in its environment, whose Gemini call answers
    with [threeOptions] *)
Definition geminiBrowser : Service.externals :=
{| Service.API_KEY := Some "AIzaEnv";
   Service.atob := fun s => inr s;
   Service.getDocument := fun _ => inl "Invalid PDF structure.";
   Service.generateContent := fun _ => inr (Some (Service.Parses threeOptions));
   Service.fetch := fun _ => Service.NetworkError "Failed to fetch" |}.

(** the answer [{}]: an object without [questions] *)
Definition noQuestions : parsedResponse := Unmappable (obj []) eq_refl.

(** the answer [{"questions": [null]}] *)
Definition nullRecord : parsedResponse :=
  Unmappable (obj [("questions", JS.Arr [JS.Null])]) eq_refl.

(** a browser with a key in its environment, whose Gemini call answers
    with the text [{}] *)
Definition emptyObjectBrowser : Service.externals :=
  {| Service.API_KEY := Some "AIzaEnv";
     Service.atob := fun s => inr s;
     Service.getDocument := fun _ => inl "Invalid PDF structure.";
     Service.generateContent := fun _ => inr (Some (Service.Parses noQuestions));
     Service.fetch := fun _ => Service.NetworkError "Failed to fetch" |}.

(** an application in the quiz state, with one entry in its history *)
Definition quizApp : App.state :=
  App.handleGenerateQuiz noon "notes.txt" EASY (inr threeOptions) (App.initial ∅).

(** the settings of a locally served, OpenAI-compatible endpoint *)
Definition ollama : JS.value :=
  obj [("baseUrl", JS.Str "http://localhost:11434/v1");
       ("apiKey", JS.Str "k");
       ("model", JS.Str "llama3")].

(** a browser whose [atob] returns its argument, with no network *)
Definition plainBrowser : Service.externals :=
  {| Service.API_KEY := None;
     Service.atob := fun s => inr s;
     Service.getDocument := fun _ => inl "Invalid PDF structure.";
     Service.generateContent := fun _ => inl "unreachable";
     Service.fetch := fun _ => Service.NetworkError "Failed to fetch" |}.

(** settings persisted by an older version: no [gemini] object, and an
    [openai] object without [baseUrl] *)
Definition oldShape : JS.value :=
  obj [("provider", JS.Str "openai");
       ("openai", obj [("apiKey", JS.Str "k"); ("model", JS.Str "m")])].

(** a full history, newest first: identifiers ["19"] down to ["0"] *)
Definition twenty : list QuizHistoryItem.t :=
  (fun i => QuizHistoryItem.mk (pretty (19 - i)) "notes.pdf" "2024-10-27" EASY [])
    <$> seq 0 20.

Definition fullApp : App.state :=
  App.mk UPLOAD [] None (js_settings App.DEFAULT_SETTINGS) twenty ∅.

(** a history of three entries: identifiers ["19"], ["18"], ["17"] *)
Definition shortApp : App.state :=
  App.mk UPLOAD [] None (js_settings App.DEFAULT_SETTINGS) (take 3 twenty) ∅.

(** three questions whose correct options are 1, 2 and 0 *)
Definition threeQuestions : list Question.t :=
  [Question.mk 0 "Q1" ["a"; "b"; "c"; "d"] 1 "E1";
   Question.mk 1 "Q2" ["a"; "b"; "c"; "d"] 2 "E2";
   Question.mk 2 "Q3" ["a"; "b"; "c"; "d"] 0 "E3"].

(** a PDF of two pages whose second page cannot be read *)
Definition twoPages : Service.PdfDocument :=
  {| Service.numPages := 2;
     Service.getPage := fun i => if (i =? 1)%nat then Some ["Hello"; "world"] else None |}.

Definition pdfBrowser : Service.externals :=
  {| Service.API_KEY := None;
     Service.atob := fun s => inr s;
     Service.getDocument := fun _ => inr twoPages;
     Service.generateContent := fun _ => inl "unreachable";
     Service.fetch := fun _ => Service.NetworkError "Failed to fetch" |}.

(** a PDF without pages *)
Definition noPages : Service.PdfDocument :=
{| Service.numPages := 0; Service.getPage := fun _ => None |}.

Definition emptyPdfBrowser : Service.externals :=
{| Service.API_KEY := None;
   Service.atob := fun s => inr s;
   Service.getDocument := fun _ => inr noPages;
   Service.generateContent := fun _ => inl "unreachable";
   Service.fetch := fun _ => Service.NetworkError "Failed to fetch" |}.

(** settings whose Gemini key was typed by the user *)
Definition userKeySettings : JS.value :=
  obj [("provider", JS.Str "gemini"); ("gemini", obj [("apiKey", JS.Str "AIzaUser")])].

(** a browser whose [fetch] answers with [threeOptions] *)
Definition openaiBrowser : Service.externals :=
  {| Service.API_KEY := None;
     Service.atob := fun s => inr s;
     Service.getDocument := fun _ => inl "Invalid PDF structure.";
     Service.generateContent := fun _ => inl "unreachable";
     Service.fetch := fun _ => Service.Ok (Some (Service.Parses threeOptions)) |}.

(** a browser whose [fetch] is answered with status 401 *)
Definition unauthorizedBrowser : Service.externals :=
  {| Service.API_KEY := None;
     Service.atob := fun s => inr s;
     Service.getDocument := fun _ => inl "Invalid PDF structure.";
     Service.generateContent := fun _ => inl "unreachable";
     Service.fetch := fun _ => Service.NotOk (Some "Incorrect API key provided") |}.

(** a browser in which PDF.js cannot start its worker *)
Definition workerlessBrowser : Service.externals :=
  {| Service.API_KEY := None;
     Service.atob := fun s => inr s;
     Service.getDocument := fun _ => inl "Setting up fake Worker failed";
     Service.generateContent := fun _ => inl "unreachable";
     Service.fetch := fun _ => Service.NetworkError "Failed to fetch" |}.

Definition pngFile : FileUpload.File :=
  {| FileUpload.name := "slide.png"; FileUpload.size := 20480; FileUpload.type := "image/png" |}.

(** a file that is both too large and of an unsupported type *)
Definition videoFile : FileUpload.File :=
  {| FileUpload.name := "talk.mp4"; FileUpload.size := 6000000; FileUpload.type := "video/mp4" |}.

Definition docFile : FileUpload.File :=
  {| FileUpload.name := "notes.docx"; FileUpload.size := 1000; FileUpload.type := "application/msword" |}.

(** three questions, the second of which has no options *)
Definition noOptions : list Question.t :=
  [Question.mk 0 "Q1" ["a"; "b"; "c"; "d"] 1 "E1";
   Question.mk 1 "Q2" [] 0 "E2";
   Question.mk 2 "Q3" ["a"; "b"; "c"; "d"] 0 "E3"].

End Samples.

(* ===================================================================== *)
(** * Properties *)
(* ===================================================================== *)

Import Types.
Import Samples.

(** ** Mapping provider records into questions *)

Section Mapping.

Lemma lookup_mapQuestions (response : GeneratedQuizResponse.t) (i : nat) :
  App.mapQuestions response !! i =
  (fun q => Question.mk i (Generated.questionText q) (Generated.options q)
              (Generated.correctAnswerIndex q) (Generated.explanation q))
    <$> GeneratedQuizResponse.questions response !! i.
Proof. unfold App.mapQuestions. by rewrite list_lookup_imap. Qed.

(** C1, as stated, fails: the provider answers with [threeOptions], whose
    record has three options and correct-answer index 7; the service
    returns it, and the handler neither raises nor returns to the upload
    state: it enters the quiz with that record as its only question. *)
Lemma C1_violating_record_passes :
  let settled :=
    Service.generateQuizFromContent geminiBrowser "aGVsbG8=" "text/plain" EASY None in
  let st := App.handleGenerateQuiz noon "notes.txt" EASY settled (App.initial ∅) in
  settled = inr threeOptions ∧
  App.appState st = QUIZ ∧
  App.questions st = [Question.mk 0 "Q" ["a"; "b"; "c"] 7 "E"] ∧
  length (Question.options (Question.mk 0 "Q" ["a"; "b"; "c"] 7 "E")) ≠ 4 ∧
  ¬ (0 ≤ Question.correctAnswerIndex (Question.mk 0 "Q" ["a"; "b"; "c"] 7 "E") ≤ 3)%Z.
Proof.
  assert (Service.generateQuizFromContent geminiBrowser "aGVsbG8=" "text/plain" EASY None
          = inr threeOptions) as E by reflexivity.
  cbn zeta. rewrite E. cbn. repeat split; [discriminate | lia].
Qed.

Lemma declared_never_throws (response : GeneratedQuizResponse.t) :
  mapThrows (js_response response) = false.
Proof.
  unfold mapThrows, js_response, obj. cbn [JS.get list_to_map foldr uncurry].
  rewrite lookup_insert_eq.
  induction (GeneratedQuizResponse.questions response) as [| q l IH]; [done |].
  exact IH.
Qed.

Lemma existsb_is_null (records : list JS.value) :
  existsb is_null records = false ↔ JS.Null ∉ records.
Proof.
  induction records as [| v l IH]; cbn [existsb].
  - split; [intros _ H; by apply elem_of_nil in H | done].
  - rewrite orb_false_iff, IH, not_elem_of_cons. by destruct v; cbn; split; intros [? ?].
Qed.

(** C1 (amended): the mapping checks neither the number of options nor
    the correct-answer index, and no error of its own is raised.  For a
    response of the declared shape, whatever its records hold, the map
    does not throw, the handler enters the quiz, and question [i] is
    record [i] with identifier [i] and every field copied as received,
    in the order received.  The map throws on a parsed value exactly
    when the value is not an object whose [questions] is an array
    without [null] elements; the handler then puts the upload screen
    back and leaves the questions, the result, the settings, the history
    and the storage as they were. *)
Theorem C1_mapping_copies_every_record
    (c : App.clock) (fileName : string) (difficulty : Difficulty) (st : App.state) :
  (∀ response : GeneratedQuizResponse.t,
     let st' := App.handleGenerateQuiz c fileName difficulty (inr response) st in
     mapThrows (js_response response) = false ∧
     App.appState st' = QUIZ ∧
     length (App.questions st') = length (GeneratedQuizResponse.questions response) ∧
     ∀ i : nat,
       App.questions st' !! i =
       (fun q => Question.mk i (Generated.questionText q) (Generated.options q)
                   (Generated.correctAnswerIndex q) (Generated.explanation q))
         <$> GeneratedQuizResponse.questions response !! i) ∧
  (∀ (v : JS.value) (H : mapThrows v = true),
     App.handleGenerateQuiz c fileName difficulty (inr (Unmappable v H)) st
     = App.mk UPLOAD (App.questions st) (App.result st) (App.aiSettings st)
         (App.history st) (App.localStorage st)) ∧
  (∀ v : JS.value,
     mapThrows v = false ↔
     ∃ m records,
       v = JS.Obj m ∧ m !! "questions" = Some (JS.Arr records) ∧ JS.Null ∉ records).
Proof.
  split; [| split].
  - intros response. cbn. split; [apply declared_never_throws |].
    split; [done |]. split.
    + unfold App.mapQuestions. by rewrite length_imap.
    + intros i. apply lookup_mapQuestions.
  - reflexivity.
  - intros v. split.
    + intros H. destruct v as [| b | n | t | l | m]; try discriminate H.
      cbn in H. destruct (m !! "questions") as [[| | | | records |] |] eqn:Hq;
        try discriminate H.
      exists m, records. split; [done |]. split; [done |]. by apply existsb_is_null.
    + intros (m & records & -> & Hq & Hn). cbn. rewrite Hq. by apply existsb_is_null.
Qed.

(** C1 on the answers [{}], [null] and [{"questions": [null]}], which
    the service returns and the handler answers with the upload screen;
    on [threeOptions], which enters the quiz; and on an array holding a
    number, which the map takes without a throw *)
Lemma C1_witness :
  (mapThrows (obj []) = true ∧
   Service.generateQuizFromContent emptyObjectBrowser "aGVsbG8=" "text/plain" EASY None
   = inr noQuestions ∧
   App.handleGenerateQuiz noon "notes.txt" EASY (inr noQuestions) quizApp
   = App.mk UPLOAD (App.questions quizApp) (App.result quizApp) (App.aiSettings quizApp)
       (App.history quizApp) (App.localStorage quizApp) ∧
   App.appState quizApp = QUIZ ∧
   length (App.history quizApp) = 1) ∧
  (mapThrows JS.Null = true ∧
   App.appState (App.handleGenerateQuiz noon "notes.txt" EASY
                   (inr (Unmappable JS.Null eq_refl)) quizApp) = UPLOAD) ∧
  (mapThrows (obj [("questions", JS.Arr [JS.Null])]) = true ∧
   App.history (App.handleGenerateQuiz noon "notes.txt" EASY (inr nullRecord) quizApp)
   = App.history quizApp) ∧
  (mapThrows (js_response threeOptions) = false ∧
   App.appState (App.handleGenerateQuiz noon "notes.txt" EASY (inr threeOptions) quizApp)
   = QUIZ ∧
   App.questions (App.handleGenerateQuiz noon "notes.txt" EASY (inr threeOptions) quizApp)
     !! 0
   = Some (Question.mk 0 "Q" ["a"; "b"; "c"] 7 "E") ∧
   JS.Null ∉ [js_generated (Generated.mk "Q" ["a"; "b"; "c"] 7 "E")]) ∧
  (mapThrows (obj [("questions", JS.Arr [JS.Num 1])]) = false ∧
   JS.Null ∉ [JS.Num 1]).
Proof.
  pose proof (C1_mapping_copies_every_record noon "notes.txt" EASY quizApp)
    as (Hdeclared & Hthrows & Hclass).
  split; [| split; [| split; [| split]]].
  - split; [reflexivity |]. split; [reflexivity |].
    split; [apply (Hthrows (obj []) eq_refl) |]. split; reflexivity.
  - split; [reflexivity |]. by rewrite (Hthrows JS.Null eq_refl).
  - split; [reflexivity |]. unfold nullRecord. by rewrite Hthrows.
  - destruct (Hdeclared threeOptions) as (Hno & Hstate & _ & Hcopy).
    split; [exact Hno |]. split; [exact Hstate |]. split; [apply (Hcopy 0) |].
    destruct (proj1 (Hclass (js_response threeOptions)) Hno) as (m & records & Hv & Hq & Hn).
    injection Hv as <-. cbn in Hq. rewrite lookup_insert_eq in Hq. by injection Hq as <-.
  - assert (mapThrows (obj [("questions", JS.Arr [JS.Num 1])]) = false) as Hone
      by reflexivity.
    split; [exact Hone |].
    destruct (proj1 (Hclass _) Hone) as (m & records & Hv & Hq & Hn).
    injection Hv as <-. cbn in Hq. rewrite lookup_insert_eq in Hq. by injection Hq as <-.
Defined.

End Mapping.

(** ** The request of the OpenAI-compatible adapter *)

Section Request.

(** C2: the adapter's request goes to the fixed address
    [https://api.openai.com/v1/chat/completions] whatever the settings
    hold; with the base URL [http://localhost:11434/v1] configured, the
    request is not sent to [{baseUrl}/chat/completions].  Its method,
    bearer header, model and response format are the configured ones. *)
Theorem C2_request_ignores_baseUrl :
  (∀ config content,
     Service.url (Service.openAIRequest config content) =
     "https://api.openai.com/v1/chat/completions") ∧
  ∃ r b,
    Service.sentRequest plainBrowser "aGVsbG8=" "text/plain" HARD (Some ollama) = Some r ∧
    JS.get ollama "baseUrl" = Some (JS.Str "http://localhost:11434/v1") ∧
    Service.url r ≠ "http://localhost:11434/v1" +:+ "/chat/completions" ∧
    Service.method r = "POST" ∧
    Service.headers r !! 0 = Some ("Authorization", "Bearer k") ∧
    Service.body r = JS.JSON_stringify b ∧
    JS.get b "model" = Some (JS.Str "llama3") ∧
    JS.get b "response_format" = Some (obj [("type", JS.Str "json_object")]).
Proof.
  split; [done |].
  eexists. eexists. split; [reflexivity |].
  split; [reflexivity |]. split; [by vm_compute |].
  split; [reflexivity |]. split; [reflexivity |]. split; [reflexivity |].
  split; reflexivity.
Qed.

End Request.

(** ** Settings: saving, loading, defaults *)

Section Settings.

Lemma merge_settings_absorbs (s : AISettings.t) :
  JS.merge (js_settings App.DEFAULT_SETTINGS) (js_settings s) = js_settings s.
Proof. unfold JS.merge, js_settings, obj. cbn [JS.spread]. by f_equal. Qed.

Lemma get_merge_obj (d : JS.value) (m : gmap string JS.value) (k : string) :
  JS.get (JS.merge d (JS.Obj m)) k =
  match m !! k with Some v => Some v | None => JS.spread d !! k end.
Proof.
  unfold JS.merge. cbn [JS.get JS.spread]. rewrite lookup_union.
  by destruct (m !! k), (JS.spread d !! k).
Qed.

Lemma loadSettings_stored (store : gmap string JS.text) (parsed : JS.value) :
  App.aiSettings
    (App.loadSettings
       (App.initial (<["exam_simulator_settings" := JS.JSON_stringify parsed]> store)))
  = JS.merge (js_settings App.DEFAULT_SETTINGS) parsed.
Proof.
  unfold App.loadSettings, App.initial. cbn [App.localStorage].
  by rewrite lookup_insert_eq.
Qed.

(** C3, as stated, fails on nested fields: the stored object [oldShape]
    has an [openai] object without [baseUrl]; the defaults have one; the
    loaded settings still have none. *)
Lemma C3_nested_field_stays_missing :
  let loaded :=
    App.aiSettings
      (App.loadSettings
         (App.initial {["exam_simulator_settings" := JS.JSON_stringify oldShape]})) in
  JS.opt_get (JS.get oldShape "openai") "baseUrl" = None ∧
  JS.opt_get (JS.get (js_settings App.DEFAULT_SETTINGS) "openai") "baseUrl"
    = Some (JS.Str "https://api.openai.com/v1") ∧
  JS.opt_get (JS.get loaded "openai") "baseUrl" = None.
Proof. by vm_compute. Qed.

(** C3 (amended): saving settings of the current shape and loading them
    again yields the same object; and loading any stored object gives,
    for every top-level field, the stored value when the object has the
    field and the default when it lacks it (a stored nested object is
    taken whole). *)
Theorem C3_roundtrip_and_top_level_defaults :
  (∀ (s : AISettings.t) (st : App.state),
     App.aiSettings
       (App.loadSettings
          (App.initial (App.localStorage (App.handleSaveSettings (js_settings s) st))))
     = js_settings s) ∧
  (∀ (m : gmap string JS.value) (store : gmap string JS.text) (k : string),
     JS.get
       (App.aiSettings
          (App.loadSettings
             (App.initial
                (<["exam_simulator_settings" := JS.JSON_stringify (JS.Obj m)]> store))))
       k
     = match m !! k with
       | Some v => Some v
       | None => JS.get (js_settings App.DEFAULT_SETTINGS) k
       end).
Proof.
  split.
  - intros s st. unfold App.handleSaveSettings, App.setItem. cbn [App.localStorage].
    rewrite loadSettings_stored. apply merge_settings_absorbs.
  - intros m store k. rewrite loadSettings_stored. apply get_merge_obj.
Qed.

End Settings.

(** ** Choice of the adapter and of the Gemini key *)

Section Dispatch.

(** C9: without settings, or with settings whose [provider] is falsy,
    the Gemini adapter is called; and in the Gemini adapter, when the
    settings hold no truthy [gemini.apiKey], the key is the one of the
    environment, which is then the key of the request. *)
Theorem C9_gemini_by_default_env_key_fallback
    (x : Service.externals) (settings : option JS.value) :
  (settings = None ∨ JS.truthy (JS.opt_get settings "provider") = false →
   Service.generateQuizFromContent_dispatch settings
   = Service.generateWithGemini_of settings) ∧
  (JS.truthy (JS.opt_get (JS.opt_get settings "gemini") "apiKey") = false →
   Service.geminiApiKey (Service.API_KEY x) settings = JS.Str <$> Service.API_KEY x ∧
   ∀ (key base64Data mimeType : string) (difficulty : Difficulty),
     Service.API_KEY x = Some key → key ≠ "" →
     Service.generateWithGemini x base64Data mimeType difficulty settings =
     match Service.generateContent x
             {| Service.g_apiKey := JS.Str key;
                Service.g_model := "gemini-2.5-flash";
                Service.g_mimeType := mimeType;
                Service.g_data := base64Data;
                Service.g_text := Service.PROMPT_TEMPLATE difficulty;
                Service.g_systemInstruction := Service.SYSTEM_INSTRUCTION;
                Service.g_responseMimeType := "application/json" |} with
     | inl message => inl message
     | inr text => Service.parsed text "No response generated from Gemini."
     end).
Proof.
  split.
  - intros H. assert (JS.truthy (JS.opt_get settings "provider") = false) as E.
    { destruct H as [-> | H]; [reflexivity | exact H]. }
    unfold Service.generateQuizFromContent_dispatch, JS.or_else. by rewrite E.
  - intros E.
    assert (Service.geminiApiKey (Service.API_KEY x) settings
            = JS.Str <$> Service.API_KEY x) as K.
    { unfold Service.geminiApiKey, JS.or_else. by rewrite E. }
    split; [exact K |].
    intros key base64Data mimeType difficulty Hkey Hne.
    unfold Service.generateWithGemini. rewrite K, Hkey. cbn.
    destruct (String.eqb_spec key "") as [-> | _]; [done | reflexivity].
Qed.

(** C9 at a concrete input: no settings, the key [AIzaEnv] in the
    environment of [geminiBrowser]. *)
Lemma C9_witness :
  (@None JS.value = None ∨ JS.truthy (JS.opt_get None "provider") = false) ∧
  JS.truthy (JS.opt_get (JS.opt_get None "gemini") "apiKey") = false ∧
  Service.API_KEY geminiBrowser = Some "AIzaEnv" ∧
  Service.generateQuizFromContent_dispatch None = Service.generateWithGemini_of None ∧
  Service.geminiApiKey (Some "AIzaEnv") None = Some (JS.Str "AIzaEnv") ∧
  Service.generateWithGemini geminiBrowser "aGVsbG8=" "text/plain" EASY None
  = inr threeOptions.
Proof.
  split; [by left |]. split; [reflexivity |]. split; [reflexivity |].
  split; [| split].
  - apply (proj1 (C9_gemini_by_default_env_key_fallback geminiBrowser None)). by left.
  - apply (proj1 (proj2 (C9_gemini_by_default_env_key_fallback geminiBrowser None) eq_refl)).
  - apply (proj2 (proj2 (C9_gemini_by_default_env_key_fallback geminiBrowser None) eq_refl)
             "AIzaEnv" "aGVsbG8=" "text/plain" EASY eq_refl).
    discriminate.
Defined.

End Dispatch.

(** ** The history list *)

Section History.

Lemma filter_split_length {A : Type} (P : A → Prop) `{!∀ x, Decision (P x)}
    (l : list A) :
  length (filter P l) + length (filter (fun x => ¬ P x) l) = length l.
Proof.
  induction l as [| x l IH]; [done |].
  rewrite !filter_cons. destruct (decide (P x)) as [Hx | Hx].
  - rewrite decide_False by tauto. cbn. lia.
  - rewrite decide_True by tauto. cbn. lia.
Qed.

Lemma full_list_last {A : Type} (n : nat) (l : list A) :
  length l = S n → ∃ oldest, l = take n l ++ [oldest].
Proof.
  intros Hl. destruct (drop n l) as [| oldest [| y rest]] eqn:Hd.
  - apply (f_equal length) in Hd. rewrite length_drop in Hd. cbn in Hd. lia.
  - exists oldest. by rewrite <- Hd, take_drop.
  - apply (f_equal length) in Hd. rewrite length_drop in Hd. cbn in Hd. lia.
Qed.

(** C4: on a history of 20 entries, saving a new one drops the last
    (oldest) entry and nothing else, puts the new entry first and leaves
    20 entries in their order; on a shorter history nothing is dropped.
    The stored text is that of the new list, and opening an entry leaves
    the list as it is. *)
Theorem C4_history_bounded_at_20
    (c : App.clock) (fileName : string) (difficulty : Difficulty)
    (questions : list Question.t) (st : App.state) :
  let newItem :=
    QuizHistoryItem.mk (pretty (App.now c)) fileName (App.iso c) difficulty questions in
  let st' := App.saveToHistory c fileName difficulty questions st in
  (length (App.history st) = 20 →
   ∃ kept oldest,
     App.history st = kept ++ [oldest] ∧
     App.history st' = newItem :: kept ∧
     length (App.history st') = 20) ∧
  (length (App.history st) < 20 → App.history st' = newItem :: App.history st) ∧
  App.localStorage st' !! "exam_simulator_history"
    = Some (JS.JSON_stringify (js_history (App.history st'))) ∧
  ∀ item, App.history (App.handleLoadFromHistory item st) = App.history st.
Proof.
  cbn zeta. unfold App.saveToHistory, App.setItem, App.setHistory.
  cbn [App.history App.localStorage]. repeat split.
  - intros Hl. destruct (full_list_last 19 (App.history st) Hl) as [oldest Ho].
    exists (take 19 (App.history st)), oldest. split; [exact Ho |].
    split; [reflexivity |].
    cbn [take length]. rewrite length_take. lia.
  - intros Hl. cbn [take]. f_equal. apply take_ge. lia.
  - apply lookup_insert_eq.
Qed.

(** C4 on the full history [twenty] and on the empty one *)
Lemma C4_witness :
  (length (App.history fullApp) = 20 ∧
   ∃ kept oldest,
     App.history fullApp = kept ++ [oldest] ∧
     App.history (App.saveToHistory noon "new.pdf" HARD [] fullApp)
     = QuizHistoryItem.mk "1730000000000" "new.pdf" "2024-10-27T03:33:20.000Z" HARD []
       :: kept ∧
     length (App.history (App.saveToHistory noon "new.pdf" HARD [] fullApp)) = 20) ∧
  (length (App.history (App.initial ∅)) < 20 ∧
   App.history (App.saveToHistory noon "new.pdf" HARD [] (App.initial ∅))
   = [QuizHistoryItem.mk "1730000000000" "new.pdf" "2024-10-27T03:33:20.000Z" HARD []]).
Proof.
  split.
  - split; [reflexivity |].
    apply (proj1 (C4_history_bounded_at_20 noon "new.pdf" HARD [] fullApp)).
    reflexivity.
  - split; [cbn; lia |].
    apply (proj1 (proj2 (C4_history_bounded_at_20 noon "new.pdf" HARD [] (App.initial ∅)))).
    cbn; lia.
Defined.

(** C10: deleting by identifier leaves no entry with that identifier,
    keeps the remaining entries as a subsequence of the old list (same
    entries, same order), drops as many entries as carry the identifier
    and no more, and stores the text of the new list; the other state
    cells and the other stored keys are untouched. *)
Theorem C10_delete_by_id (id : string) (st : App.state) :
  let st' := App.handleDeleteHistory id st in
  Forall (fun item => QuizHistoryItem.id item ≠ id) (App.history st') ∧
  App.history st' `sublist_of` App.history st ∧
  length (App.history st')
  + length (filter (fun item => QuizHistoryItem.id item = id) (App.history st))
  = length (App.history st) ∧
  App.localStorage st' !! "exam_simulator_history"
    = Some (JS.JSON_stringify (js_history (App.history st'))) ∧
  delete "exam_simulator_history" (App.localStorage st')
    = delete "exam_simulator_history" (App.localStorage st) ∧
  (App.appState st', App.questions st', App.result st', App.aiSettings st')
    = (App.appState st, App.questions st, App.result st, App.aiSettings st).
Proof.
  cbn zeta. unfold App.handleDeleteHistory, App.setItem, App.setHistory.
  cbn [App.history App.localStorage App.appState App.questions App.result
       App.aiSettings].
  repeat split.
  - apply Forall_forall. intros item Hin. by apply list_elem_of_filter in Hin as [? _].
  - apply sublist_filter.
  - rewrite Nat.add_comm.
    apply (filter_split_length (fun item => QuizHistoryItem.id item = id)).
  - apply lookup_insert_eq.
  - apply delete_insert_eq.
Qed.

End History.

(** ** Scoring *)

Section Score.
Import Scoring.

Lemma reduce_score_count (questions : list Question.t) (all : list Z) :
  ∀ (rest : list Z) (idx acc : nat),
    drop idx all = rest →
    length all ≤ length questions →
    App.reduce_score questions idx rest acc =
    Some (acc + length (filter (fun i => correctAt questions all i = true)
                               (seq idx (length rest)))).
Proof.
  induction rest as [| answer rest IH]; intros idx acc Hd Hl.
  - cbn. f_equal. lia.
  - assert (all !! idx = Some answer) as Ha.
    { rewrite <- (Nat.add_0_r idx), <- lookup_drop, Hd. done. }
    assert (drop (S idx) all = rest) as Hd'.
    { replace (S idx) with (idx + 1) by lia. rewrite <- drop_drop, Hd. done. }
    destruct (lookup_lt_is_Some_2 questions idx) as [q Hq].
    { apply lookup_lt_Some in Ha. lia. }
    cbn [App.reduce_score length seq]. rewrite Hq, (IH _ _ Hd' Hl).
    assert (correctAt questions all idx = (answer =? Question.correctAnswerIndex q)%Z) as Hc.
    { unfold correctAt. by rewrite Ha, Hq. }
    rewrite filter_cons. cbn beta. rewrite Hc.
    destruct (answer =? Question.correctAnswerIndex q)%Z.
    + rewrite decide_True by done. cbn. f_equal. lia.
    + rewrite decide_False by done. done.
Qed.

Lemma quizResult_total (questions : list Question.t) (userAnswers : list Z) :
  length userAnswers = length questions →
  App.quizResult questions userAnswers =
  Some (QuizResult.mk (length (correctIndices questions userAnswers))
          (length questions) userAnswers questions).
Proof.
  intros Hl. unfold App.quizResult, correctIndices.
  rewrite (reduce_score_count questions userAnswers userAnswers 0 0) by (done || lia).
  by rewrite Hl.
Qed.

End Score.

(** ** The quiz session *)

Section Session.
Import QuizInterface.

Lemma hasAnsweredCurrent_false (s : state) :
  hasAnsweredCurrent s = false ↔ selectedAnswers s !! currentIndex s = Some (-1)%Z.
Proof.
  unfold hasAnsweredCurrent. destruct (selectedAnswers s !! currentIndex s) as [a |].
  - destruct (Z.eqb_spec a (-1)) as [-> | Hne]; cbn; split; try done.
    intros [= ->]. done.
  - split; done.
Qed.

Lemma handleOptionSelect_keeps (k : nat) (s : state) (i : nat) (a : Z) :
  selectedAnswers s !! i = Some a → a ≠ (-1)%Z →
  selectedAnswers (handleOptionSelect k s) !! i = Some a.
Proof.
  intros Hi Ha. unfold handleOptionSelect.
  destruct (hasAnsweredCurrent s) eqn:E; [done |].
  apply hasAnsweredCurrent_false in E. cbn.
  destruct (decide (currentIndex s = i)) as [<- | Hne].
  - congruence.
  - by rewrite list_lookup_insert_ne.
Qed.

Lemma handleOptionSelect_answered (k : nat) (s : state) :
  hasAnsweredCurrent (handleOptionSelect k s) = true.
Proof.
  unfold handleOptionSelect. destruct (hasAnsweredCurrent s) eqn:E; [done |].
  apply hasAnsweredCurrent_false in E.
  unfold hasAnsweredCurrent. cbn.
  rewrite list_lookup_insert_eq by (by eapply lookup_lt_Some).
  destruct (Z.eqb_spec (Z.of_nat k) (-1)); [lia | done].
Qed.

Lemma run_keeps (questions : list Question.t) (es : list event) :
  ∀ (s : state) (i : nat) (a : Z),
    selectedAnswers s !! i = Some a → a ≠ (-1)%Z →
    answers (run questions es s) !! i = Some a.
Proof.
  induction es as [| e es IH]; intros s i a Hi Ha; [done |].
  destruct e as [k |]; cbn [run handle].
  - apply IH; [| done]. by apply handleOptionSelect_keeps.
  - unfold handleNext. destruct (isLastQuestion questions s); [done |].
    by apply IH.
Qed.

Lemma empty_never_completes (es : list event) :
  ∀ s, ∃ s', run [] es s = Continue s'.
Proof.
  induction es as [| e es IH]; intros s; [by eexists |].
  destruct e as [k |]; cbn [run handle]; [apply IH |].
  unfold handleNext, isLastQuestion. cbn [length].
  destruct (Z.eqb_spec (Z.of_nat (currentIndex s)) (Z.of_nat 0 - 1)); [lia | apply IH].
Qed.

Lemma cycles_complete (questions : list Question.t) :
  ∀ (rest before : list nat),
    rest ≠ [] →
    length before + length rest = length questions →
    cycles questions rest
      (Active (mk (length before)
                  ((Z.of_nat <$> before) ++ replicate (length rest) (-1)%Z) false))
    = (Completed <$> App.quizResult questions (Z.of_nat <$> (before ++ rest))).
Proof.
  induction rest as [| k rest IH]; intros before Hne Hl; [done |].
  cbn [cycles selectOption length replicate].
  assert (length (Z.of_nat <$> before) = length before) as Hd by apply length_fmap.
  unfold handleOptionSelect, hasAnsweredCurrent at 1. cbn [currentIndex selectedAnswers].
  rewrite lookup_app_r by lia. rewrite Hd, Nat.sub_diag. cbn [lookup list_lookup negb Z.eqb Pos.eqb].
  cbn.
  rewrite insert_app_r_alt by lia. rewrite Hd, Nat.sub_diag. cbn [insert list_insert].
  unfold nextEnabled, hasAnsweredCurrent. cbn [currentIndex selectedAnswers].
  rewrite lookup_app_r by lia. rewrite Hd, Nat.sub_diag. cbn [lookup list_lookup].
  destruct (Z.eqb_spec (Z.of_nat k) (-1)) as [? | _]; [lia |]. cbn [negb].
  unfold handleNext, isLastQuestion. cbn [currentIndex selectedAnswers].
  destruct rest as [| k' rest'].
  - cbn [length] in Hl. cbn [replicate length].
    destruct (Z.eqb_spec (Z.of_nat (length before)) (Z.of_nat (length questions) - 1)); [| lia].
    rewrite fmap_app. cbn.
    rewrite quizResult_total; [done |].
    rewrite length_app, Hd. cbn. lia.
  - cbn [length] in Hl.
    destruct (Z.eqb_spec (Z.of_nat (length before)) (Z.of_nat (length questions) - 1)); [lia |].
    unfold renders, currentQuestion. cbn [currentIndex].
    rewrite bool_decide_eq_true_2 by (apply lookup_lt_is_Some_2; lia).
    specialize (IH (before ++ [k])). rewrite length_app in IH. cbn [length] in IH.
    rewrite fmap_app, <- !app_assoc in IH. cbn in IH. cbn.
    apply IH; [done | lia].
Qed.

Lemma run_index_monotone (questions : list Question.t) (es : list event) :
  ∀ s s', run questions es s = Continue s' → currentIndex s ≤ currentIndex s'.
Proof.
  induction es as [| e es IH]; intros s s' Hrun.
  - injection Hrun as <-. lia.
  - destruct e as [k |]; cbn [run handle] in Hrun.
    + apply IH in Hrun. unfold handleOptionSelect in Hrun.
      destruct (hasAnsweredCurrent s); exact Hrun.
    + unfold handleNext in Hrun. destruct (isLastQuestion questions s); [done |].
      apply IH in Hrun. cbn in Hrun. lia.
Qed.

Lemma start_nonempty (questions : list Question.t) :
  questions ≠ [] → start questions = Active (initial questions).
Proof. destruct questions; [done | reflexivity]. Qed.

(** C7: a second call of the option handler changes nothing; on a state
    whose current question has a recorded answer the handler returns the
    state as it is; and whatever handlers are called afterwards, in any
    order, an answer once recorded at an index stays the answer at that
    index, up to and in the list handed to [onComplete]. *)
Theorem C7_selectOption_write_once (questions : list Question.t) (s : state) :
  (∀ k k' : nat,
     handleOptionSelect k' (handleOptionSelect k s) = handleOptionSelect k s) ∧
  (hasAnsweredCurrent s = true → ∀ k : nat, handleOptionSelect k s = s) ∧
  (∀ (es : list event) (i : nat) (a : Z),
     selectedAnswers s !! i = Some a → a ≠ (-1)%Z →
     answers (run questions es s) !! i = Some a).
Proof.
  split; [| split].
  - intros k k'. unfold handleOptionSelect at 1.
    by rewrite handleOptionSelect_answered.
  - intros E k. unfold handleOptionSelect. by rewrite E.
  - intros es i a. apply run_keeps.
Qed.

(** C7 on [threeQuestions], after option 2 was chosen for the first
    question *)
Lemma C7_witness :
  let s := handleOptionSelect 2 (initial threeQuestions) in
  hasAnsweredCurrent s = true ∧
  handleOptionSelect 0 s = s ∧
  selectedAnswers s !! 0 = Some 2%Z ∧
  answers (run threeQuestions [OptionSelect 0; Next; OptionSelect 1; Next] s) !! 0
  = Some 2%Z.
Proof.
  cbn zeta. split; [reflexivity |]. split; [| split; [reflexivity |]].
  - apply (proj1 (proj2 (C7_selectOption_write_once threeQuestions
                           (handleOptionSelect 2 (initial threeQuestions))))).
    reflexivity.
  - apply (proj2 (proj2 (C7_selectOption_write_once threeQuestions
                           (handleOptionSelect 2 (initial threeQuestions))))).
    + reflexivity.
    + discriminate.
Defined.

(** C8, as stated, fails for the empty question list: the component
    throws on its first render, no cycle is run and the session is not
    completed; nor does any sequence of handler calls ever reach
    [onComplete]. *)
Lemma C8_empty_session_never_completes :
  length (@nil Question.t) = 0 ∧
  cycles [] [] (start []) = Some Crashed ∧
  (∀ r, cycles [] [] (start []) ≠ Some (Completed r)) ∧
  (∀ es, ∃ s', run [] es (initial []) = Continue s').
Proof.
  split; [reflexivity |]. split; [reflexivity |]. split; [discriminate |].
  intros es. apply empty_never_completes.
Qed.

(** C8 (amended): for a question list that is not empty, one
    choose-then-advance cycle per question ends in the completed state,
    whose result is the one computed from the chosen options, an answer
    list as long as the question list.  The Next button is disabled, so
    that no advance happens, while the current question has no recorded
    answer; and an advance that stays in the quiz moves to the very next
    index and leaves the answers as they are; no handler ever moves the
    index back. *)
Theorem C8_cycles_reach_completed (questions : list Question.t) (ks : list nat) :
  questions ≠ [] →
  length ks = length questions →
  (∃ r, cycles questions ks (start questions) = Some (Completed r) ∧
        App.quizResult questions (Z.of_nat <$> ks) = Some r ∧
        QuizResult.userAnswers r = Z.of_nat <$> ks ∧
        length (QuizResult.userAnswers r) = length questions) ∧
  (∀ s, hasAnsweredCurrent s = false → advance questions (Active s) = None) ∧
  (∀ s s', advance questions (Active s) = Some (Active s') →
           hasAnsweredCurrent s = true ∧
           currentIndex s' = currentIndex s + 1 ∧
           selectedAnswers s' = selectedAnswers s) ∧
  (∀ es s s', run questions es s = Continue s' → currentIndex s ≤ currentIndex s').
Proof.
  intros Hne Hl. split; [| split; [| split; [| apply run_index_monotone]]].
  - assert (ks ≠ []) as Hks by (destruct ks, questions; done).
    assert (length (Z.of_nat <$> ks) = length questions) as Hl'
      by (by rewrite length_fmap).
    rewrite (start_nonempty _ Hne).
    pose proof (cycles_complete questions ks [] Hks Hl) as Hc.
    cbn [length fmap list_fmap app] in Hc. rewrite Hl in Hc.
    unfold initial. rewrite Hc.
    rewrite (quizResult_total _ _ Hl').
    eexists. split; [reflexivity |]. split; [reflexivity |].
    cbn. split; [reflexivity | exact Hl'].
  - intros s E. cbn. unfold nextEnabled. by rewrite E.
  - intros s s'. cbn. unfold nextEnabled, handleNext.
    destruct (hasAnsweredCurrent s); [| done].
    destruct (isLastQuestion questions s).
    + destruct (App.quizResult questions (selectedAnswers s)); done.
    + destruct (renders questions _); [| done].
      intros [= <-]. done.
Qed.

(** C8 on [threeQuestions] with the options 1, 3, 0 *)
Lemma C8_witness :
  threeQuestions ≠ [] ∧
  length [1; 3; 0] = length threeQuestions ∧
  ∃ r, cycles threeQuestions [1; 3; 0] (start threeQuestions) = Some (Completed r) ∧
       QuizResult.userAnswers r = [1; 3; 0]%Z ∧
       advance threeQuestions (Active (initial threeQuestions)) = None.
Proof.
  split; [discriminate |]. split; [reflexivity |].
  destruct (C8_cycles_reach_completed threeQuestions [1; 3; 0])
    as [(r & Hr & _ & Hu & _) [Hadv _]]; [discriminate | reflexivity |].
  exists r. split; [exact Hr |]. split; [exact Hu |].
  apply Hadv. reflexivity.
Defined.

End Session.

(** ** The score of a completed session *)

Section CompletedSession.
Import QuizInterface Scoring.

Lemma handleOptionSelect_cases (k : nat) (s : state) :
  (hasAnsweredCurrent s = true ∧ handleOptionSelect k s = s) ∨
  (selectedAnswers s !! currentIndex s = Some (-1)%Z ∧
   handleOptionSelect k s =
   mk (currentIndex s) (<[currentIndex s := Z.of_nat k]> (selectedAnswers s)) true).
Proof.
  unfold handleOptionSelect. destruct (hasAnsweredCurrent s) eqn:E; [by left |].
  right. by apply hasAnsweredCurrent_false in E.
Qed.

Lemma click_invariant (questions : list Question.t) (e : event) (s : state) :
  length (selectedAnswers s) = length questions →
  (∀ i a, selectedAnswers s !! i = Some a →
      (a = (-1)%Z ∧ currentIndex s ≤ i) ∨
      (∃ q, questions !! i = Some q ∧
            (0 ≤ a < Z.of_nat (length (Question.options q)))%Z ∧ i ≤ currentIndex s)) →
  match click questions e s with
  | Continue s' =>
      length (selectedAnswers s') = length questions ∧
      (∀ i a, selectedAnswers s' !! i = Some a →
          (a = (-1)%Z ∧ currentIndex s' ≤ i) ∨
          (∃ q, questions !! i = Some q ∧
                (0 ≤ a < Z.of_nat (length (Question.options q)))%Z ∧ i ≤ currentIndex s'))
  | Complete userAnswers =>
      length userAnswers = length questions ∧
      ∀ i a q, userAnswers !! i = Some a → questions !! i = Some q →
               (0 ≤ a < Z.of_nat (length (Question.options q)))%Z
  end.
Proof.
  intros Hlen Hinv. destruct e as [k |]; cbn [click].
  - destruct (optionEnabled questions s k) eqn:Hen; [| done].
    unfold optionEnabled, currentQuestion in Hen.
    destruct (questions !! currentIndex s) as [q |] eqn:Hq; [| done].
    apply andb_true_iff in Hen as [Hk%bool_decide_eq_true Hun%negb_true_iff].
    destruct (handleOptionSelect_cases k s) as [[Ha _] | [Hcur ->]]; [congruence |].
    cbn [selectedAnswers currentIndex]. split; [by rewrite length_insert |].
    intros i a Hi. destruct (decide (i = currentIndex s)) as [-> | Hne].
    + rewrite list_lookup_insert_eq in Hi by (by eapply lookup_lt_Some).
      injection Hi as <-. right. exists q. split; [done |]. split; [lia | done].
    + rewrite list_lookup_insert_ne in Hi by done. by apply Hinv.
  - unfold nextEnabled. destruct (hasAnsweredCurrent s) eqn:Hans; [| done].
    assert (∀ a, selectedAnswers s !! currentIndex s = Some a → a ≠ (-1)%Z) as Hcur.
    { intros a Ha ->. apply hasAnsweredCurrent_false in Ha. congruence. }
    unfold handleNext, isLastQuestion.
    destruct (Z.eqb_spec (Z.of_nat (currentIndex s)) (Z.of_nat (length questions) - 1))
      as [Hlast | Hlast].
    + split; [done |]. intros i a q Hi Hq.
      destruct (Hinv i a Hi) as [[-> Hle] | (q' & Hq' & Hv & _)].
      * pose proof (lookup_lt_Some _ _ _ Hi) as Hlt.
        assert (i = currentIndex s) as -> by lia.
        by destruct (Hcur (-1)%Z Hi).
      * congruence.
    + cbn [selectedAnswers currentIndex]. split; [done |].
      intros i a Hi. destruct (Hinv i a Hi) as [[-> Hle] | (q' & Hq' & Hv & Hle)].
      * left. split; [done |].
        destruct (decide (i = currentIndex s)) as [-> | ?];
          [by destruct (Hcur (-1)%Z Hi) | lia].
      * right. exists q'. split; [done |]. split; [done | lia].
Qed.






End CompletedSession.

(** ** PDF text extraction *)

Section Extraction.
Import Service Pages.

Lemma append_cons (c : ascii) (s t : string) : String c s +:+ t = String c (s +:+ t).
Proof. reflexivity. Qed.

Lemma append_assoc (s t u : string) : (s +:+ t) +:+ u = s +:+ t +:+ u.
Proof. induction s as [| c s IH]; [done |]. by rewrite !append_cons, IH. Qed.

Lemma append_nil_r (s : string) : s +:+ "" = s.
Proof. induction s as [| c s IH]; [done |]. by rewrite append_cons, IH. Qed.

Lemma pageChunk_expected (pdf : PdfDocument) (i : nat) :
  pageChunk pdf i = expectedPage pdf i.
Proof.
  unfold pageChunk, expectedPage, pageMarker, failedMarker.
  destruct (getPage pdf i); by rewrite !append_assoc.
Qed.

Lemma pageLoop_foldr (pdf : PdfDocument) (remaining : nat) :
  ∀ (i : nat) (fullText : string),
    pageLoop pdf remaining i fullText =
    fullText +:+ foldr (fun n rest => expectedPage pdf n +:+ rest) "" (seq i remaining).
Proof.
  induction remaining as [| r IH]; intros i fullText; cbn [pageLoop seq foldr].
  - by rewrite append_nil_r.
  - by rewrite IH, pageChunk_expected, append_assoc.
Qed.

Lemma expectedPage_dash (pdf : PdfDocument) (i : nat) :
  ∃ t, expectedPage pdf i = String "-" t.
Proof. unfold expectedPage. destruct (getPage pdf i); eexists; reflexivity. Qed.

Lemma trimStart_rev_app (s : string) :
  ∀ acc, trimStart acc ≠ "" → trimStart (String.rev_app s acc) ≠ "".
Proof.
  induction s as [| a s IH]; intros acc Hacc; [done |].
  cbn [String.rev_app]. apply IH. cbn [trimStart]. by destruct (is_space a).
Qed.

Lemma rev_app_nonempty (s : string) :
  ∀ acc, acc ≠ "" → String.rev_app s acc ≠ "".
Proof. induction s as [| a s IH]; intros acc Hacc; [done |]. by apply IH. Qed.

Lemma trim_dash (t : string) : trim (String "-" t) ≠ "".
Proof.
  unfold trim. cbn [trimStart]. change (is_space "-") with false. cbn iota.
  unfold String.rev at 2. cbn [String.rev_app].
  pose proof (trimStart_rev_app t (String "-" "")) as H.
  destruct (trimStart (String.rev_app t (String "-" ""))) as [| c u] eqn:E.
  - exfalso. apply H; [done | reflexivity].
  - unfold String.rev. cbn [String.rev_app]. by apply rev_app_nonempty.
Qed.

Lemma expectedText_not_blank (pdf : PdfDocument) :
  0 < numPages pdf → String.eqb (trim (expectedText pdf)) "" = false.
Proof.
  intros Hn. unfold expectedText.
  destruct (numPages pdf) as [| n]; [lia |]. cbn [seq foldr].
  destruct (expectedPage_dash pdf 1) as [t ->]. rewrite append_cons.
  apply String.eqb_neq, trim_dash.
Qed.

(** C6: once the document is loaded, the text built by the page loop is
    the pages' chunks in page order, where a page that was read gives
    its marker and its text and a page whose reading failed gives the
    failure marker in its place; with at least one page this text is
    what the extraction returns, whichever pages failed.  The one error
    left is that of a document without pages. *)
Theorem C6_failed_pages_are_marked
    (x : externals) (base64Data bytes : string) (pdf : PdfDocument) :
  atob x base64Data = inr bytes →
  getDocument x bytes = inr pdf →
  pageLoop pdf (numPages pdf) 1 "" = expectedText pdf ∧
  (0 < numPages pdf → extractTextFromPdf x base64Data = inr (expectedText pdf)) ∧
  (numPages pdf = 0 →
   extractTextFromPdf x base64Data
   = inl "PDF appears to be empty or contains only scanned images without text layer.").
Proof.
  intros Ha Hd.
  assert (pageLoop pdf (numPages pdf) 1 "" = expectedText pdf) as Hloop
    by apply pageLoop_foldr.
  split; [exact Hloop |].
  unfold extractTextFromPdf. rewrite Ha, Hd. cbn zeta. rewrite Hloop. split.
  - intros Hn. by rewrite expectedText_not_blank.
  - intros Hz. unfold expectedText. rewrite Hz. reflexivity.
Qed.

(** C6 on [twoPages]: the text of page 1, then the failure marker of
    page 2 *)
Lemma C6_witness :
  atob pdfBrowser "JVBERi0=" = inr "JVBERi0=" ∧
  getDocument pdfBrowser "JVBERi0=" = inr twoPages ∧
  0 < numPages twoPages ∧
  extractTextFromPdf pdfBrowser "JVBERi0=" =
  inr ("--- PAGE 1 ---" +:+ LF +:+ "Hello world" +:+ LF +:+ LF +:+
       "--- PAGE 2 (Extraction Failed) ---" +:+ LF +:+ LF) ∧
  numPages noPages = 0 ∧
  extractTextFromPdf emptyPdfBrowser "JVBERi0=" =
  inl "PDF appears to be empty or contains only scanned images without text layer.".
Proof.
  split; [reflexivity |]. split; [reflexivity |]. split; [cbn; lia |].
  split; [| split; [reflexivity |]].
  - apply (proj1 (proj2 (C6_failed_pages_are_marked pdfBrowser "JVBERi0=" "JVBERi0="
                           twoPages eq_refl eq_refl))).
    cbn; lia.
  - apply (proj2 (proj2 (C6_failed_pages_are_marked emptyPdfBrowser "JVBERi0=" "JVBERi0="
                           noPages eq_refl eq_refl))).
    reflexivity.
Defined.

End Extraction.

(* ===================================================================== *)
(** * Further properties of the code *)
(* ===================================================================== *)

(** ** The service: dispatch, adapters, extraction *)

Section ServiceExtras.
Import Service Pages.

(** X1: the dispatch never throws.  The OpenAI adapter is called, with
    [settings.openai], exactly when [settings.provider] is truthy and is
    not the string [gemini]; in every other case the Gemini adapter is
    called with the settings as they are. *)
Theorem dispatch_closed_form (settings : option JS.value) :
  let provider := JS.opt_get settings "provider" in
  generateQuizFromContent_dispatch settings =
  if JS.truthy provider && negb (JS.is_str provider "gemini")
  then generateWithOpenAI_of (JS.opt_get settings "openai")
  else generateWithGemini_of settings.
Proof.
  cbn zeta. unfold generateQuizFromContent_dispatch, JS.or_else.
  destruct (JS.truthy (JS.opt_get settings "provider")) eqn:E; [| reflexivity].
  cbn [andb]. destruct (JS.is_str (JS.opt_get settings "provider") "gemini"); [reflexivity |].
  cbn [negb]. destruct settings as [[] |]; try reflexivity; discriminate E.
Qed.

Lemma generateWithGemini_key (x : externals) (settings : option JS.value)
    (key : JS.value) (base64Data mimeType : string) (difficulty : Difficulty) :
  geminiApiKey (API_KEY x) settings = Some key →
  JS.truthy (Some key) = true →
  generateWithGemini x base64Data mimeType difficulty settings =
  match generateContent x (geminiRequest key base64Data mimeType difficulty) with
  | inl message => inl message
  | inr text => parsed text "No response generated from Gemini."
  end.
Proof.
  intros Hk Ht. unfold generateWithGemini. rewrite Hk, Ht. reflexivity.
Qed.

Lemma generateWithGemini_no_key (x : externals) (settings : option JS.value)
    (base64Data mimeType : string) (difficulty : Difficulty) :
  JS.truthy (geminiApiKey (API_KEY x) settings) = false →
  generateWithGemini x base64Data mimeType difficulty settings =
  inl "Missing Gemini API Key. Please provide one in settings or configure the environment.".
Proof. intros Ht. unfold generateWithGemini. by rewrite Ht. Qed.

(** X2: a non-empty [gemini.apiKey] string in the settings is the key of
    the Gemini request, whatever the environment holds. *)
Theorem gemini_user_key_precedence (x : externals) (settings : option JS.value)
    (k base64Data mimeType : string) (difficulty : Difficulty) :
  JS.opt_get (JS.opt_get settings "gemini") "apiKey" = Some (JS.Str k) →
  k ≠ "" →
  geminiApiKey (API_KEY x) settings = Some (JS.Str k) ∧
  generateWithGemini x base64Data mimeType difficulty settings =
  match generateContent x (geminiRequest (JS.Str k) base64Data mimeType difficulty) with
  | inl message => inl message
  | inr text => parsed text "No response generated from Gemini."
  end.
Proof.
  intros Hk Hne.
  assert (JS.truthy (Some (JS.Str k)) = true) as Ht.
  { cbn. by destruct (String.eqb_spec k ""). }
  assert (geminiApiKey (API_KEY x) settings = Some (JS.Str k)) as K.
  { unfold geminiApiKey, JS.or_else. by rewrite Hk, Ht. }
  split; [exact K |]. by apply generateWithGemini_key.
Qed.

(** X3: with no truthy key in the settings and no key, or an empty one,
    in the environment, the Gemini adapter fails with the missing-key
    message, whatever the client would have answered. *)
Theorem gemini_missing_key (x : externals) (settings : option JS.value)
    (base64Data mimeType : string) (difficulty : Difficulty) :
  JS.truthy (JS.opt_get (JS.opt_get settings "gemini") "apiKey") = false →
  API_KEY x = None ∨ API_KEY x = Some "" →
  generateWithGemini x base64Data mimeType difficulty settings =
  inl "Missing Gemini API Key. Please provide one in settings or configure the environment.".
Proof.
  intros Hu He. apply generateWithGemini_no_key.
  unfold geminiApiKey, JS.or_else. rewrite Hu. by destruct He as [-> | ->].
Qed.

(** X4: the Gemini adapter returns a response exactly when a truthy key
    was found and the client, called with that key, answered with a text
    that parses; the response is the parsed one. *)
Theorem gemini_returns_provider_payload (x : externals) (settings : option JS.value)
    (base64Data mimeType : string) (difficulty : Difficulty)
    (r : parsedResponse) :
  generateWithGemini x base64Data mimeType difficulty settings = inr r ↔
  ∃ key, geminiApiKey (API_KEY x) settings = Some key ∧
         JS.truthy (Some key) = true ∧
         generateContent x (geminiRequest key base64Data mimeType difficulty)
         = inr (Some (Parses r)).
Proof.
  split.
  - intros H. destruct (JS.truthy (geminiApiKey (API_KEY x) settings)) eqn:Ht.
    + destruct (geminiApiKey (API_KEY x) settings) as [key |] eqn:Hk; [| done].
      exists key. split; [done |]. split; [done |].
      rewrite (generateWithGemini_key _ _ key) in H by done.
      destruct (generateContent x _) as [m | [[| r'] |]]; try done.
      by injection H as ->.
    + by rewrite generateWithGemini_no_key in H.
  - intros (key & Hk & Ht & Hc). rewrite (generateWithGemini_key _ _ key) by done.
    by rewrite Hc.
Qed.

Lemma rethrown_nonempty (message : string) : rethrown message ≠ "".
Proof.
  unfold rethrown. destruct (includes "Worker" message); [done |].
  by destruct (String.eqb_spec message "").
Qed.

Lemma extract_loaded (x : externals) (base64Data bytes : string) (pdf : PdfDocument) :
  atob x base64Data = inr bytes →
  getDocument x bytes = inr pdf →
  extractTextFromPdf x base64Data =
  if bool_decide (0 < numPages pdf) then inr (expectedText pdf)
  else inl "PDF appears to be empty or contains only scanned images without text layer.".
Proof.
  intros Ha Hd. unfold extractTextFromPdf. rewrite Ha, Hd. cbn zeta.
  rewrite pageLoop_foldr. change ("" +:+ ?s) with s. fold (expectedText pdf).
  case_bool_decide as Hn.
  - by rewrite expectedText_not_blank.
  - unfold expectedText. replace (numPages pdf) with 0 by lia. reflexivity.
Qed.

(** X5: the extraction returns a text exactly when the decoding and the
    loading succeed and the document has at least one page; the text is
    then the pages' chunks in page order.  The empty-document error is
    left to documents without pages. *)
Theorem extract_succeeds_iff (x : externals) (base64Data text : string) :
  extractTextFromPdf x base64Data = inr text ↔
  ∃ bytes pdf, atob x base64Data = inr bytes ∧
               getDocument x bytes = inr pdf ∧
               0 < numPages pdf ∧
               text = expectedText pdf.
Proof.
  split.
  - intros H. destruct (atob x base64Data) as [m | bytes] eqn:Ha.
    { unfold extractTextFromPdf in H. by rewrite Ha in H. }
    destruct (getDocument x bytes) as [m | pdf] eqn:Hd.
    { unfold extractTextFromPdf in H. by rewrite Ha, Hd in H. }
    rewrite (extract_loaded _ _ _ _ Ha Hd) in H.
    case_bool_decide; [| done]. injection H as <-. by exists bytes, pdf.
  - intros (bytes & pdf & Ha & Hd & Hn & ->).
    rewrite (extract_loaded _ _ _ _ Ha Hd). by rewrite bool_decide_eq_true_2.
Qed.

Lemma includes_load_prefix (message : string) :
  includes "Worker" ("Could not load PDF document. " +:+ message)
  = includes "Worker" message.
Proof.
  unfold includes. cbv [String.append]. cbn [String.index String.prefix].
  repeat match goal with
         | |- context [if ascii_dec ?a ?b then _ else _] =>
             destruct (ascii_dec a b); [discriminate |]
         end.
  by destruct (String.index 0 "Worker" message).
Qed.

(** X6: an extraction error never has an empty message; and a loading
    failure is reported as the worker failure when its message mentions
    [Worker], and as the loading failure with the message appended
    otherwise. *)
Theorem extract_error_message (x : externals) (base64Data : string) :
  (∀ message, extractTextFromPdf x base64Data = inl message → message ≠ "") ∧
  (∀ bytes message,
     atob x base64Data = inr bytes →
     getDocument x bytes = inl message →
     extractTextFromPdf x base64Data =
     inl (if includes "Worker" message
          then "PDF Worker failed to initialize. Please refresh or try a different browser."
          else "Could not load PDF document. " +:+ message)).
Proof.
  split.
  - intros message H. unfold extractTextFromPdf in H.
    destruct (atob x base64Data) as [m | bytes].
    { injection H as <-. apply rethrown_nonempty. }
    destruct (getDocument x bytes) as [m | pdf].
    { injection H as <-. apply rethrown_nonempty. }
    cbn zeta in H. destruct (String.eqb _ ""); [| done].
    injection H as <-. apply rethrown_nonempty.
  - intros bytes message Ha Hd. unfold extractTextFromPdf. rewrite Ha, Hd.
    f_equal. unfold rethrown. rewrite includes_load_prefix.
    destruct (includes "Worker" message); reflexivity.
Qed.

Lemma image_is_not_pdf (mimeType : string) :
  String.prefix "image/" mimeType = true → String.eqb mimeType "application/pdf" = false.
Proof.
  intros H. destruct (String.eqb_spec mimeType "application/pdf") as [-> | _]; [| done].
  discriminate H.
Qed.

(** X7: the user content always has two parts, the second being the
    prompt; the first is an [image_url] part for a media type that starts
    with [image/], a [text] part otherwise. *)
Theorem userContent_shape (x : externals) (base64Data mimeType : string)
    (difficulty : Difficulty) (content : list JS.value) :
  userContent x base64Data mimeType difficulty = inr content →
  ∃ first,
    content = [first; textPart (PROMPT_TEMPLATE difficulty)] ∧
    JS.get first "type" =
    Some (JS.Str (if negb (String.eqb mimeType "application/pdf")
                     && String.prefix "image/" mimeType
                  then "image_url" else "text")).
Proof.
  unfold userContent. intros H.
  destruct (String.eqb mimeType "application/pdf"); cbn [negb andb].
  - destruct (extractTextFromPdf x base64Data); [done |].
    injection H as <-. by eexists.
  - destruct (String.prefix "image/" mimeType).
    + injection H as <-. by eexists.
    + destruct (atob x base64Data); [done |]. injection H as <-. by eexists.
Qed.

Lemma userContent_image (x : externals) (base64Data mimeType : string)
    (difficulty : Difficulty) :
  String.prefix "image/" mimeType = true →
  userContent x base64Data mimeType difficulty =
    inr [imagePart base64Data mimeType; textPart (PROMPT_TEMPLATE difficulty)].
Proof. intros H. unfold userContent. by rewrite (image_is_not_pdf _ H), H. Qed.

(** X8: for a media type that starts with [image/] the content is built
    from the base64 data as it is, with no decoding and no PDF loading,
    and the request is always sent. *)
Theorem image_content_needs_no_decoding (x : externals) (base64Data mimeType : string)
    (difficulty : Difficulty) (config : option JS.value) :
  String.prefix "image/" mimeType = true →
  userContent x base64Data mimeType difficulty =
    inr [imagePart base64Data mimeType; textPart (PROMPT_TEMPLATE difficulty)] ∧
  sentRequest x base64Data mimeType difficulty config =
    Some (openAIRequest config
            [imagePart base64Data mimeType; textPart (PROMPT_TEMPLATE difficulty)]).
Proof.
  intros H. split; [by apply userContent_image |].
  unfold sentRequest. by rewrite userContent_image.
Qed.

(** X9: the OpenAI adapter checks no credential: without an [apiKey] the
    bearer header reads [Bearer undefined].  The body's model is the
    configured one when truthy and [gpt-4o] otherwise; the body asks for
    a JSON object and holds the system and the user message. *)
Theorem openai_no_credential_check (config : option JS.value) (content : list JS.value) :
  (JS.opt_get config "apiKey" = None →
   headers (openAIRequest config content) =
   [("Authorization", "Bearer undefined"); ("Content-Type", "application/json")]) ∧
  ∃ b, body (openAIRequest config content) = JS.JSON_stringify b ∧
       JS.get b "model" =
         (if JS.truthy (JS.opt_get config "model") then JS.opt_get config "model"
          else Some (JS.Str "gpt-4o")) ∧
       JS.get b "response_format" = Some (obj [("type", JS.Str "json_object")]) ∧
       JS.get b "messages" =
         Some (JS.Arr [obj [("role", JS.Str "system");
                            ("content", JS.Str SYSTEM_INSTRUCTION)];
                       obj [("role", JS.Str "user"); ("content", JS.Arr content)]]).
Proof.
  split.
  - intros H. unfold openAIRequest. cbn [headers]. by rewrite H.
  - unfold openAIRequest. cbn [body]. eexists. split; [reflexivity |].
    unfold JS.or_else. destruct (JS.truthy (JS.opt_get config "model")) eqn:Ht.
    + destruct (JS.opt_get config "model") as [model |]; [| done].
      repeat split; reflexivity.
    + repeat split; reflexivity.
Qed.

Lemma generateWithOpenAI_content (x : externals) (base64Data mimeType : string)
    (difficulty : Difficulty) (config : option JS.value) (content : list JS.value) :
  userContent x base64Data mimeType difficulty = inr content →
  generateWithOpenAI x base64Data mimeType difficulty config =
  match fetch x (openAIRequest config content) with
  | NetworkError message => inl message
  | NotOk (Some message) =>
      inl (if String.eqb message "" then "OpenAI API request failed" else message)
  | NotOk None => inl "OpenAI API request failed"
  | Ok text => parsed text "No response generated from OpenAI."
  end.
Proof. intros H. unfold generateWithOpenAI. by rewrite H. Qed.

(** X10: the OpenAI adapter returns a response exactly when the content
    could be built and [fetch], called with the request for it, was
    answered with a content that parses. *)
Theorem openai_returns_provider_payload (x : externals) (base64Data mimeType : string)
    (difficulty : Difficulty) (config : option JS.value) (r : parsedResponse) :
  generateWithOpenAI x base64Data mimeType difficulty config = inr r ↔
  ∃ content, userContent x base64Data mimeType difficulty = inr content ∧
             fetch x (openAIRequest config content) = Ok (Some (Parses r)).
Proof.
  split.
  - intros H. destruct (userContent x base64Data mimeType difficulty) as [m | content] eqn:Hu.
    { unfold generateWithOpenAI in H. by rewrite Hu in H. }
    exists content. split; [done |].
    rewrite (generateWithOpenAI_content _ _ _ _ _ _ Hu) in H.
    destruct (fetch x _) as [m | [m |] | [[| r'] |]]; try done.
    by injection H as ->.
  - intros (content & Hu & Hf).
    by rewrite (generateWithOpenAI_content _ _ _ _ _ _ Hu), Hf.
Qed.

(** X11: when the PDF extraction fails no request is sent and the
    adapter fails with the extraction's message; when the provider
    answers with an error status and a message, that message is the
    adapter's error, verbatim. *)
Theorem openai_failures (x : externals) (base64Data mimeType : string)
    (difficulty : Difficulty) (config : option JS.value) :
  (∀ message,
     mimeType = "application/pdf" →
     extractTextFromPdf x base64Data = inl message →
     sentRequest x base64Data mimeType difficulty config = None ∧
     generateWithOpenAI x base64Data mimeType difficulty config = inl message) ∧
  (∀ content message,
     userContent x base64Data mimeType difficulty = inr content →
     fetch x (openAIRequest config content) = NotOk (Some message) →
     message ≠ "" →
     generateWithOpenAI x base64Data mimeType difficulty config = inl message).
Proof.
  split.
  - intros message -> He.
    assert (userContent x base64Data "application/pdf" difficulty = inl message) as Hu.
    { unfold userContent. cbn. by rewrite He. }
    unfold sentRequest, generateWithOpenAI. by rewrite Hu.
  - intros content message Hu Hf Hne.
    rewrite (generateWithOpenAI_content _ _ _ _ _ _ Hu), Hf.
    by destruct (String.eqb_spec message "").
Qed.

(** X2 at [userKeySettings], with another key in the environment *)
Lemma gemini_user_key_precedence_witness :
  JS.opt_get (JS.opt_get (Some userKeySettings) "gemini") "apiKey"
    = Some (JS.Str "AIzaUser") ∧
  "AIzaUser" ≠ "" ∧
  API_KEY geminiBrowser = Some "AIzaEnv" ∧
  geminiApiKey (API_KEY geminiBrowser) (Some userKeySettings) = Some (JS.Str "AIzaUser").
Proof.
  split; [reflexivity |]. split; [discriminate |]. split; [reflexivity |].
  apply (proj1 (gemini_user_key_precedence geminiBrowser (Some userKeySettings)
                  "AIzaUser" "aGVsbG8=" "text/plain" EASY eq_refl ltac:(discriminate))).
Defined.

(** X3 at the default settings, with no key in the environment *)
Lemma gemini_missing_key_witness :
  JS.truthy (JS.opt_get (JS.opt_get (Some (js_settings App.DEFAULT_SETTINGS)) "gemini")
               "apiKey") = false ∧
  (API_KEY plainBrowser = None ∨ API_KEY plainBrowser = Some "") ∧
  generateWithGemini plainBrowser "aGVsbG8=" "text/plain" EASY
    (Some (js_settings App.DEFAULT_SETTINGS))
  = inl "Missing Gemini API Key. Please provide one in settings or configure the environment.".
Proof.
  split; [reflexivity |]. split; [by left |].
  apply (gemini_missing_key plainBrowser (Some (js_settings App.DEFAULT_SETTINGS))
           "aGVsbG8=" "text/plain" EASY eq_refl).
  by left.
Defined.

(** X4 at [geminiBrowser]: the response comes from the client *)
Lemma gemini_returns_provider_payload_witness :
  generateWithGemini geminiBrowser "aGVsbG8=" "text/plain" EASY None = inr threeOptions ∧
  ∃ key, geminiApiKey (API_KEY geminiBrowser) None = Some key ∧
         JS.truthy (Some key) = true ∧
         generateContent geminiBrowser (geminiRequest key "aGVsbG8=" "text/plain" EASY)
         = inr (Some (Parses threeOptions)).
Proof.
  split; [reflexivity |].
  apply (proj1 (gemini_returns_provider_payload geminiBrowser None "aGVsbG8=" "text/plain"
                  EASY threeOptions)).
  reflexivity.
Defined.

(** X5 at [twoPages] *)
Lemma extract_succeeds_iff_witness :
  (∃ bytes pdf, atob pdfBrowser "JVBERi0=" = inr bytes ∧
                getDocument pdfBrowser bytes = inr pdf ∧
                0 < numPages pdf ∧
                expectedText twoPages = expectedText pdf) ∧
  extractTextFromPdf pdfBrowser "JVBERi0=" = inr (expectedText twoPages).
Proof.
  assert (∃ bytes pdf, atob pdfBrowser "JVBERi0=" = inr bytes ∧
                       getDocument pdfBrowser bytes = inr pdf ∧
                       0 < numPages pdf ∧
                       expectedText twoPages = expectedText pdf) as H.
  { exists "JVBERi0=", twoPages. repeat split; cbn; lia. }
  split; [exact H |].
  apply (proj2 (extract_succeeds_iff pdfBrowser "JVBERi0=" (expectedText twoPages))).
  exact H.
Defined.

(** X6 where the document does not load: an invalid structure, and a
    worker that cannot start *)
Lemma extract_error_message_witness :
  (extractTextFromPdf plainBrowser "JVBERi0="
     = inl "Could not load PDF document. Invalid PDF structure." ∧
   "Could not load PDF document. Invalid PDF structure." ≠ "") ∧
  (atob workerlessBrowser "JVBERi0=" = inr "JVBERi0=" ∧
   getDocument workerlessBrowser "JVBERi0=" = inl "Setting up fake Worker failed" ∧
   extractTextFromPdf workerlessBrowser "JVBERi0="
     = inl "PDF Worker failed to initialize. Please refresh or try a different browser.").
Proof.
  split.
  - split; [reflexivity |].
    apply (proj1 (extract_error_message plainBrowser "JVBERi0=")). reflexivity.
  - split; [reflexivity |]. split; [reflexivity |].
    apply (proj2 (extract_error_message workerlessBrowser "JVBERi0=")
             "JVBERi0=" "Setting up fake Worker failed" eq_refl eq_refl).
Defined.

(** X7 for a plain text *)
Lemma userContent_shape_witness :
  userContent plainBrowser "aGVsbG8=" "text/plain" HARD
    = inr [textPart "aGVsbG8="; textPart (PROMPT_TEMPLATE HARD)] ∧
  ∃ first,
    [textPart "aGVsbG8="; textPart (PROMPT_TEMPLATE HARD)]
      = [first; textPart (PROMPT_TEMPLATE HARD)] ∧
    JS.get first "type" = Some (JS.Str "text").
Proof.
  split; [reflexivity |].
  apply (userContent_shape plainBrowser "aGVsbG8=" "text/plain" HARD). reflexivity.
Defined.

(** X8 for a PNG image *)
Lemma image_content_needs_no_decoding_witness :
  String.prefix "image/" "image/png" = true ∧
  sentRequest plainBrowser "iVBORw0KGgo=" "image/png" EASY (Some ollama) =
    Some (openAIRequest (Some ollama)
            [imagePart "iVBORw0KGgo=" "image/png"; textPart (PROMPT_TEMPLATE EASY)]).
Proof.
  split; [reflexivity |].
  apply (proj2 (image_content_needs_no_decoding plainBrowser "iVBORw0KGgo=" "image/png"
                  EASY (Some ollama) eq_refl)).
Defined.

(** X9 with no configuration at all *)
Lemma openai_no_credential_check_witness :
  JS.opt_get None "apiKey" = None ∧
  headers (openAIRequest None []) =
  [("Authorization", "Bearer undefined"); ("Content-Type", "application/json")].
Proof.
  split; [reflexivity |].
  apply (proj1 (openai_no_credential_check None [])). reflexivity.
Defined.

(** X10 at [openaiBrowser] *)
Lemma openai_returns_provider_payload_witness :
  generateWithOpenAI openaiBrowser "aGVsbG8=" "text/plain" EASY (Some ollama)
    = inr threeOptions ∧
  ∃ content, userContent openaiBrowser "aGVsbG8=" "text/plain" EASY = inr content ∧
             fetch openaiBrowser (openAIRequest (Some ollama) content)
             = Ok (Some (Parses threeOptions)).
Proof.
  split; [reflexivity |].
  apply (proj1 (openai_returns_provider_payload openaiBrowser "aGVsbG8=" "text/plain" EASY
                  (Some ollama) threeOptions)).
  reflexivity.
Defined.

(** X11: a PDF that does not load, and a provider answering 401 *)
Lemma openai_failures_witness :
  (extractTextFromPdf plainBrowser "JVBERi0="
     = inl "Could not load PDF document. Invalid PDF structure." ∧
   sentRequest plainBrowser "JVBERi0=" "application/pdf" EASY (Some ollama) = None ∧
   generateWithOpenAI plainBrowser "JVBERi0=" "application/pdf" EASY (Some ollama)
     = inl "Could not load PDF document. Invalid PDF structure.") ∧
  (fetch unauthorizedBrowser
     (openAIRequest (Some ollama)
        [textPart "aGVsbG8="; textPart (PROMPT_TEMPLATE EASY)])
     = NotOk (Some "Incorrect API key provided") ∧
   generateWithOpenAI unauthorizedBrowser "aGVsbG8=" "text/plain" EASY (Some ollama)
     = inl "Incorrect API key provided").
Proof.
  split.
  - split; [reflexivity |].
    apply (proj1 (openai_failures plainBrowser "JVBERi0=" "application/pdf" EASY
                    (Some ollama))
             "Could not load PDF document. Invalid PDF structure." eq_refl eq_refl).
  - split; [reflexivity |].
    apply (proj2 (openai_failures unauthorizedBrowser "aGVsbG8=" "text/plain" EASY
                    (Some ollama))
             [textPart "aGVsbG8="; textPart (PROMPT_TEMPLATE EASY)]
             "Incorrect API key provided" eq_refl eq_refl).
    discriminate.
Defined.

End ServiceExtras.


(** ** The upload form *)

Section FileUploadExtras.
Import FileUpload.


Lemma includes_elem_of (types : list string) (t : string) :
  includes types t = true ↔ t ∈ types.
Proof.
  unfold includes. rewrite existsb_exists. split.
  - intros (y & Hy%list_elem_of_In & ->%String.eqb_eq). done.
  - intros H. exists t. split; [by apply list_elem_of_In | apply String.eqb_refl].
Qed.

Lemma validateFile_cases (f : File) (st : state) :
  ((validateFile f st).1 = true ↔ (size f ≤ 5242880)%N ∧ type f ∈ validTypes) ∧
  ((validateFile f st).1 = true → (validateFile f st).2 = st) ∧
  ((5242880 < size f)%N →
   validateFile f st = (false, setError (Some "File size too large. Max 5MB.") st)) ∧
  ((size f ≤ 5242880)%N → type f ∉ validTypes →
   validateFile f st =
   (false, setError (Some "Unsupported file type. Please upload PDF, TXT, or Image.") st)).
Proof.
  unfold validateFile. change (5 * 1024 * 1024)%N with 5242880%N.
  destruct (N.ltb_spec 5242880 (size f)) as [Hs | Hs].
  - repeat split; cbn; try done; try lia.
  - destruct (includes validTypes (type f)) eqn:Hi; cbn [negb fst snd].
    + apply includes_elem_of in Hi. repeat split; try done; lia.
    + assert (type f ∉ validTypes) as Hn.
      { intros H%includes_elem_of. congruence. }
      repeat split; try done; try lia. by intros [_ ?].
Qed.

(** X12: a file is accepted exactly when it has at most 5 MiB and one
    of the five supported media types, and accepting changes nothing; a
    file that is too large is refused for its size, also when its type is
    unsupported too; a file of an unsupported type and acceptable size is
    refused for its type. *)
Theorem validateFile_accepts_iff (f : File) (st : state) :
  ((validateFile f st).1 = true ↔ (size f ≤ 5242880)%N ∧ type f ∈ validTypes) ∧
  ((validateFile f st).1 = true → (validateFile f st).2 = st) ∧
  ((5242880 < size f)%N →
   validateFile f st = (false, setError (Some "File size too large. Max 5MB.") st)) ∧
  ((size f ≤ 5242880)%N → type f ∉ validTypes →
   validateFile f st =
   (false, setError (Some "Unsupported file type. Please upload PDF, TXT, or Image.") st)).
Proof. apply validateFile_cases. Qed.

Lemma validateFile_keeps_file (f : File) (st : state) :
  file (validateFile f st).2 = file st.
Proof.
  unfold validateFile. destruct (_ <? _)%N; [done |]. by destruct (negb _).
Qed.

Lemma take_first_valid (files : list File) (st : state) :
  (∀ f, file st = Some f → (size f ≤ 5242880)%N ∧ type f ∈ validTypes) →
  ∀ f, file (take_first files st) = Some f → (size f ≤ 5242880)%N ∧ type f ∈ validTypes.
Proof.
  intros Hst. destruct files as [| f0 rest]; [done |]. cbn [take_first].
  pose proof (validateFile_cases f0 st) as (Hiff & _).
  pose proof (validateFile_keeps_file f0 st) as Hkeep.
  destruct (validateFile f0 st) as [ok st']. cbn [fst snd] in *.
  destruct ok.
  - intros f [= <-]. by apply Hiff.
  - rewrite Hkeep. exact Hst.
Qed.

Lemma handle_valid (e : event) (st : state) :
  (∀ f, file st = Some f → (size f ≤ 5242880)%N ∧ type f ∈ validTypes) →
  ∀ f, file (handle e st) = Some f → (size f ≤ 5242880)%N ∧ type f ∈ validTypes.
Proof.
  intros Hst. destruct e as [t | files | files | d]; cbn [handle].
  - unfold handleDrag. destruct (_ || _); [exact Hst |]. destruct (String.eqb _ _); exact Hst.
  - unfold handleDrop. apply take_first_valid. exact Hst.
  - unfold handleChange. apply take_first_valid. exact Hst.
  - exact Hst.
Qed.

(** X13: whatever was dragged, dropped, chosen or set before, the file
    handed to [onGenerate] has at most 5 MiB and a supported media type. *)
Theorem submitted_file_is_valid (es : list event) (r : read) (f : File)
    (base64Content : option string) (d : Difficulty) :
  handleSubmit r (run es initial) = Generate f base64Content d →
  (size f ≤ 5242880)%N ∧ type f ∈ validTypes.
Proof.
  assert (∀ st, (∀ f, file st = Some f → (size f ≤ 5242880)%N ∧ type f ∈ validTypes) →
                ∀ f, file (run es st) = Some f → (size f ≤ 5242880)%N ∧ type f ∈ validTypes) as Hrun.
  { induction es as [| e es IH]; intros st Hst; [exact Hst |].
    cbn [run foldl]. apply IH. by apply handle_valid. }
  intros H. unfold handleSubmit in H.
  destruct (file (run es initial)) as [f' |] eqn:Hf; [| done].
  destruct r; [done |]. injection H as -> _ _.
  by apply (Hrun initial).
Qed.

Lemma split_nonempty (sep : ascii) (s : string) : split sep s ≠ [].
Proof.
  destruct s as [| c r]; [done |]. cbn [split].
  destruct (Ascii.eqb c sep); [done |]. by destruct (split sep r).
Qed.

Lemma split_single_cons (sep c : ascii) (s : string) :
  split sep (String c s) = [String c s] → Ascii.eqb c sep = false ∧ split sep s = [s].
Proof.
  cbn [split]. destruct (Ascii.eqb c sep).
  - by intros [=].
  - destruct (split sep s) as [| h [| h' t]] eqn:Hs.
    + by destruct (split_nonempty sep s).
    + by intros [= ->].
    + done.
Qed.

Lemma split_app_single (sep : ascii) (a b : string) :
  split sep a = [a] → split sep (a +:+ b) =
  match split sep b with h :: t => (a +:+ h) :: t | [] => [] end.
Proof.
  induction a as [| c a IH]; intros Ha.
  - change ("" +:+ b) with b. by destruct (split sep b).
  - apply split_single_cons in Ha as [Hc Ha].
    change (String c a +:+ b) with (String c (a +:+ b)). cbn [split].
    rewrite Hc, (IH Ha). destruct (split sep b) as [| h t] eqn:Hb.
    + by destruct (split_nonempty sep b).
    + reflexivity.
Qed.

(** X14: when the reader's result is the data URL of the file's type
    and of a comma-free content, [onGenerate] receives that content; and
    for an image the URL the OpenAI adapter then sends is the reader's
    data URL again. *)
Theorem data_url_round_trip (f : File) (base64Content : string) (st : state)
    (x : Service.externals) (d : Difficulty) :
  file st = Some f →
  split "," (type f) = [type f] →
  split "," base64Content = [base64Content] →
  let result := "data:" +:+ type f +:+ ";base64," +:+ base64Content in
  handleSubmit (ReadOk result) st = Generate f (Some base64Content) (difficulty st) ∧
  (String.prefix "image/" (type f) = true →
   ∃ content,
     Service.userContent x base64Content (type f) d = inr content ∧
     (content !! 0 ≫= (fun part => JS.opt_get (JS.get part "image_url") "url"))
     = Some (JS.Str result)).
Proof.
  intros Hf Ht Hc result. split.
  - unfold handleSubmit. rewrite Hf. f_equal.
    unfold result.
    assert (split "," ("data:" +:+ type f +:+ ";base64") = ["data:" +:+ type f +:+ ";base64"])
      as Hpre.
    { rewrite (split_app_single "," "data:") by reflexivity.
      rewrite (split_app_single "," (type f)) by exact Ht. reflexivity. }
    replace ("data:" +:+ type f +:+ ";base64," +:+ base64Content)
      with (("data:" +:+ type f +:+ ";base64") +:+ "," +:+ base64Content).
    2:{ rewrite !append_assoc. reflexivity. }
    rewrite (split_app_single _ _ _ Hpre).
    change ("," +:+ base64Content) with (String "," base64Content).
    cbn [split]. change (Ascii.eqb "," ",") with true. cbn iota. by rewrite Hc.
  - intros Hi. eexists. split.
    + apply (userContent_image x base64Content (type f) d Hi).
    + reflexivity.
Qed.

(** X15: for each accepted media type the OpenAI adapter takes the
    branch meant for it: extraction for a PDF, decoding for a plain text,
    the inline image for the three image types. *)
Theorem accepted_types_reach_their_branch (x : Service.externals)
    (base64Data mimeType : string) (d : Difficulty) :
  mimeType ∈ validTypes →
  Service.userContent x base64Data mimeType d =
  if String.eqb mimeType "application/pdf" then
    match Service.extractTextFromPdf x base64Data with
    | inl message => inl message
    | inr extractedText =>
        inr [Service.textPart extractedText; Service.textPart (Service.PROMPT_TEMPLATE d)]
    end
  else if String.eqb mimeType "text/plain" then
    match Service.atob x base64Data with
    | inl message => inl message
    | inr textContent =>
        inr [Service.textPart textContent; Service.textPart (Service.PROMPT_TEMPLATE d)]
    end
  else
    inr [Service.imagePart base64Data mimeType; Service.textPart (Service.PROMPT_TEMPLATE d)].
Proof.
  unfold validTypes. rewrite !elem_of_cons, elem_of_nil.
  intros [-> | [-> | [-> | [-> | [-> | []]]]]]; reflexivity.
Qed.

(** X12 at a PNG file, at a large video and at a small document *)
Lemma validateFile_accepts_iff_witness :
  ((size pngFile ≤ 5242880)%N ∧ type pngFile ∈ validTypes) ∧
  validateFile pngFile initial = (true, initial) ∧
  (5242880 < size videoFile)%N ∧
  (type videoFile ∉ validTypes) ∧
  validateFile videoFile initial
    = (false, setError (Some "File size too large. Max 5MB.") initial) ∧
  (size docFile ≤ 5242880)%N ∧
  (type docFile ∉ validTypes) ∧
  validateFile docFile initial
    = (false, setError (Some "Unsupported file type. Please upload PDF, TXT, or Image.")
                initial).
Proof.
  assert ((size pngFile ≤ 5242880)%N ∧ type pngFile ∈ validTypes) as Hpng.
  { split; [cbn; lia | by apply includes_elem_of]. }
  assert (type videoFile ∉ validTypes) as Hvideo.
  { intros H%includes_elem_of. discriminate H. }
  assert (type docFile ∉ validTypes) as Hdoc.
  { intros H%includes_elem_of. discriminate H. }
  split; [exact Hpng |]. split.
  { pose proof (proj2 (proj1 (validateFile_accepts_iff pngFile initial)) Hpng) as H1.
    pose proof (proj1 (proj2 (validateFile_accepts_iff pngFile initial)) H1) as H2.
    destruct (validateFile pngFile initial) as [ok st]. cbn in H1, H2.
    rewrite H1, H2. reflexivity. }
  split; [cbn; lia |]. split; [exact Hvideo |]. split.
  { apply (proj1 (proj2 (proj2 (validateFile_accepts_iff videoFile initial)))). cbn; lia. }
  split; [cbn; lia |]. split; [exact Hdoc |].
  apply (proj2 (proj2 (proj2 (validateFile_accepts_iff docFile initial)))); [cbn; lia | exact Hdoc].
Defined.

(** X13 after a refused drop and an accepted choice *)
Lemma submitted_file_is_valid_witness :
  handleSubmit (ReadOk "data:image/png;base64,iVBORw0KGgo=")
    (run [Drag "dragenter"; Drop [videoFile]; Change [pngFile]; Change [docFile]] initial)
    = Generate pngFile (Some "iVBORw0KGgo=") MEDIUM ∧
  (size pngFile ≤ 5242880)%N ∧ type pngFile ∈ validTypes.
Proof.
  split; [reflexivity |].
  apply (submitted_file_is_valid
           [Drag "dragenter"; Drop [videoFile]; Change [pngFile]; Change [docFile]]
           (ReadOk "data:image/png;base64,iVBORw0KGgo=") pngFile (Some "iVBORw0KGgo=") MEDIUM).
  reflexivity.
Defined.

(** X14 for the PNG file *)
Lemma data_url_round_trip_witness :
  file (handleChange [pngFile] initial) = Some pngFile ∧
  split "," (type pngFile) = [type pngFile] ∧
  split "," "iVBORw0KGgo=" = ["iVBORw0KGgo="] ∧
  handleSubmit (ReadOk "data:image/png;base64,iVBORw0KGgo=") (handleChange [pngFile] initial)
    = Generate pngFile (Some "iVBORw0KGgo=") MEDIUM.
Proof.
  split; [reflexivity |]. split; [reflexivity |]. split; [reflexivity |].
  apply (proj1 (data_url_round_trip pngFile "iVBORw0KGgo=" (handleChange [pngFile] initial)
                  plainBrowser EASY eq_refl eq_refl eq_refl)).
Defined.

(** X15 for a WebP image *)
Lemma accepted_types_reach_their_branch_witness :
  "image/webp" ∈ validTypes ∧
  Service.userContent plainBrowser "UklGRg==" "image/webp" EASY =
  inr [Service.imagePart "UklGRg==" "image/webp";
       Service.textPart (Service.PROMPT_TEMPLATE EASY)].
Proof.
  assert ("image/webp" ∈ validTypes) as H by (by apply includes_elem_of).
  split; [exact H |].
  apply (accepted_types_reach_their_branch plainBrowser "UklGRg==" "image/webp" EASY H).
Defined.

End FileUploadExtras.


(** ** The app: settings and history *)

Section AppExtras.

Lemma loadSettings_initial (store : gmap string JS.text) :
  App.aiSettings (App.loadSettings (App.initial store)) =
  match store !! "exam_simulator_settings" with
  | Some (JS.Json parsed) => JS.merge (js_settings App.DEFAULT_SETTINGS) parsed
  | _ => js_settings App.DEFAULT_SETTINGS
  end.
Proof.
  unfold App.loadSettings, App.initial. cbn [App.localStorage].
  by destruct (store !! "exam_simulator_settings") as [[| | parsed] |].
Qed.

(** X16: with no stored settings, an empty text or a text that does not
    parse, the mount effect leaves the state as it was; a stored value
    without properties of its own ([null], a number, a boolean, an empty
    object) gives the default settings. *)
Theorem loadSettings_degrades_to_defaults (store : gmap string JS.text) :
  (store !! "exam_simulator_settings" = None ∨
   store !! "exam_simulator_settings" = Some JS.EmptyText ∨
   store !! "exam_simulator_settings" = Some JS.Garbled →
   App.loadSettings (App.initial store) = App.initial store) ∧
  (∀ parsed, store !! "exam_simulator_settings" = Some (JS.JSON_stringify parsed) →
             JS.spread parsed = ∅ →
             App.aiSettings (App.loadSettings (App.initial store))
             = js_settings App.DEFAULT_SETTINGS).
Proof.
  split.
  - unfold App.loadSettings, App.initial. cbn [App.localStorage].
    by intros [-> | [-> | ->]].
  - intros parsed Hs He. rewrite loadSettings_initial, Hs. cbn.
    unfold JS.merge. rewrite He. by rewrite (left_id ∅ (∪)).
Qed.

Lemma default_fields (k : string) :
  k ∈ ["provider"; "gemini"; "openai"] ↔
  is_Some (JS.spread (js_settings App.DEFAULT_SETTINGS) !! k).
Proof.
  rewrite !elem_of_cons, elem_of_nil. split.
  - intros [-> | [-> | [-> | []]]]; by eexists.
  - intros H.
    destruct (decide (k = "provider")) as [-> | ?]; [tauto |].
    destruct (decide (k = "gemini")) as [-> | ?]; [tauto |].
    destruct (decide (k = "openai")) as [-> | ?]; [tauto |].
    exfalso. cbn in H. rewrite !lookup_insert_ne in H by done.
    rewrite lookup_empty in H. by destruct H.
Qed.

Lemma merge_is_complete (parsed : JS.value) (k : string) :
  k ∈ ["provider"; "gemini"; "openai"] →
  is_Some (JS.get (JS.merge (js_settings App.DEFAULT_SETTINGS) parsed) k).
Proof.
  intros Hk%default_fields. unfold JS.merge. cbn [JS.get].
  rewrite lookup_union_is_Some. by right.
Qed.

(** X17: whatever the storage holds, the settings after the mount effect
    have a [provider], a [gemini] and an [openai] field. *)
Theorem loaded_settings_are_complete (store : gmap string JS.text) (k : string) :
  k ∈ ["provider"; "gemini"; "openai"] →
  is_Some (JS.get (App.aiSettings (App.loadSettings (App.initial store))) k).
Proof.
  intros Hk. rewrite loadSettings_initial.
  destruct (store !! "exam_simulator_settings") as [[| | parsed] |];
    try (by apply merge_is_complete);
    apply default_fields in Hk; exact Hk.
Qed.

Lemma merge_absorbs_complete (m : gmap string JS.value) :
  (∀ k, k ∈ ["provider"; "gemini"; "openai"] → is_Some (m !! k)) →
  JS.merge (js_settings App.DEFAULT_SETTINGS) (JS.Obj m) = JS.Obj m.
Proof.
  intros Hm. unfold JS.merge. cbn [JS.spread]. f_equal.
  apply map_eq. intros k. rewrite lookup_union.
  destruct (m !! k) as [v |] eqn:Hk.
  - by destruct (JS.spread (js_settings App.DEFAULT_SETTINGS) !! k).
  - destruct (JS.spread (js_settings App.DEFAULT_SETTINGS) !! k) as [v |] eqn:Hd; [| done].
    assert (k ∈ ["provider"; "gemini"; "openai"]) as Hin.
    { apply default_fields. by rewrite Hd. }
    apply Hm in Hin. rewrite Hk in Hin. by destruct Hin.
Qed.

Lemma handleChange_object (name value : string) (prev : JS.value) :
  ∃ m, SettingsModal.handleChange name value prev = JS.Obj m ∧
       ∀ k, is_Some (JS.spread prev !! k) → is_Some (m !! k).
Proof.
  unfold SettingsModal.handleChange.
  destruct (String.eqb name "provider"); [| destruct (String.eqb name "geminiApiKey")];
    eexists; (split; [reflexivity |]); intros k Hk;
    rewrite lookup_insert_is_Some'; by right.
Qed.

Lemma edit_complete (changes : list (string * string)) :
  ∀ m, (∀ k, k ∈ ["provider"; "gemini"; "openai"] → is_Some (m !! k)) →
       ∃ m', SettingsModal.edit changes (JS.Obj m) = JS.Obj m' ∧
             ∀ k, k ∈ ["provider"; "gemini"; "openai"] → is_Some (m' !! k).
Proof.
  induction changes as [| [name value] changes IH]; intros m Hm.
  - by exists m.
  - cbn [SettingsModal.edit foldl fst snd].
    destruct (handleChange_object name value (JS.Obj m)) as (m1 & -> & H1).
    apply IH. intros k Hk. apply H1. cbn [JS.spread]. by apply Hm.
Qed.

Lemma loaded_is_object (store : gmap string JS.text) :
  ∃ m, App.aiSettings (App.loadSettings (App.initial store)) = JS.Obj m ∧
       ∀ k, k ∈ ["provider"; "gemini"; "openai"] → is_Some (m !! k).
Proof.
  rewrite loadSettings_initial.
  destruct (store !! "exam_simulator_settings") as [[| | parsed] |];
    try (eexists; split; [reflexivity |]; intros k Hk; by apply default_fields).
  eexists. split; [reflexivity |]. intros k Hk.
  apply (merge_is_complete parsed k Hk).
Qed.

(** X18: whatever the storage held when the app started and whatever was
    typed into the modal, saving the form makes it the app's settings, and
    a restart loads the same object again. *)
Theorem modal_settings_round_trip (store : gmap string JS.text)
    (changes : list (string * string)) (app : App.state) :
  let formData :=
    SettingsModal.edit changes (App.aiSettings (App.loadSettings (App.initial store))) in
  let saved := SettingsModal.handleSave formData app in
  App.aiSettings saved = formData ∧
  App.aiSettings (App.loadSettings (App.initial (App.localStorage saved))) = formData.
Proof.
  cbn zeta. split; [reflexivity |].
  destruct (loaded_is_object store) as (m & -> & Hm).
  destruct (edit_complete changes m Hm) as (m' & -> & Hm').
  unfold SettingsModal.handleSave, App.handleSaveSettings, App.setItem.
  cbn [App.localStorage]. rewrite loadSettings_stored.
  by apply merge_absorbs_complete.
Qed.

(** X19: a change of the [provider] input or of the Gemini key input
    reads back from the form; a change of any other input lands in the
    [openai] object under the input's name, next to that object's other
    fields; and every top-level field but the changed one is as before. *)
Theorem handleChange_sets_one_field (name value : string) (prev : JS.value) :
  (name = "provider" →
   JS.get (SettingsModal.handleChange name value prev) "provider" = Some (JS.Str value)) ∧
  (name = "geminiApiKey" →
   JS.opt_get (JS.get (SettingsModal.handleChange name value prev) "gemini") "apiKey"
   = Some (JS.Str value)) ∧
  (name ≠ "provider" → name ≠ "geminiApiKey" →
   JS.opt_get (JS.get (SettingsModal.handleChange name value prev) "openai") name
   = Some (JS.Str value) ∧
   ∀ k, k ≠ name →
        JS.opt_get (JS.get (SettingsModal.handleChange name value prev) "openai") k
        = SettingsModal.spread_opt (JS.get prev "openai") !! k) ∧
  (∀ k, k ≠ (if String.eqb name "provider" then "provider"
             else if String.eqb name "geminiApiKey" then "gemini" else "openai") →
        JS.get (SettingsModal.handleChange name value prev) k = JS.spread prev !! k).
Proof.
  unfold SettingsModal.handleChange. repeat split.
  - intros ->. cbn. apply lookup_insert_eq.
  - intros ->. cbn. rewrite lookup_insert_eq. cbn. apply lookup_insert_eq.
  - destruct (String.eqb_spec name "provider"); [done |].
    destruct (String.eqb_spec name "geminiApiKey"); [done |].
    cbn. rewrite lookup_insert_eq. cbn. apply lookup_insert_eq.
  - intros k Hk.
    destruct (String.eqb_spec name "provider"); [done |].
    destruct (String.eqb_spec name "geminiApiKey"); [done |].
    cbn. rewrite lookup_insert_eq. cbn. by apply lookup_insert_ne.
  - intros k Hk.
    destruct (String.eqb name "provider"); [| destruct (String.eqb name "geminiApiKey")];
      cbn; by apply lookup_insert_ne.
Qed.

(** X20: a non-empty Gemini key typed into the form is the key the
    Gemini adapter uses; and after a change of the provider, the service
    calls the Gemini adapter for an empty value or [gemini] and the OpenAI
    adapter, with the form's [openai] object, for anything else. *)
Theorem form_edits_reach_the_service (value : string) (prev : JS.value)
    (env_key : option string) :
  (value ≠ "" →
   Service.geminiApiKey env_key (Some (SettingsModal.handleChange "geminiApiKey" value prev))
   = Some (JS.Str value)) ∧
  Service.generateQuizFromContent_dispatch
    (Some (SettingsModal.handleChange "provider" value prev))
  = if String.eqb value "" || String.eqb value "gemini"
    then Service.generateWithGemini_of
           (Some (SettingsModal.handleChange "provider" value prev))
    else Service.generateWithOpenAI_of (JS.spread prev !! "openai").
Proof.
  split.
  - intros Hne. unfold Service.geminiApiKey, JS.or_else.
    cbn. rewrite lookup_insert_eq. cbn. rewrite lookup_insert_eq. cbn.
    by destruct (String.eqb_spec value "").
  - unfold Service.generateQuizFromContent_dispatch, JS.or_else.
    cbn. rewrite lookup_insert_eq. cbn.
    destruct (String.eqb_spec value ""); cbn; [reflexivity |].
    destruct (String.eqb_spec value "gemini"); cbn; [reflexivity |].
    by rewrite lookup_insert_ne.
Qed.

Lemma history_handle_cases (e : App.event) (st : App.state) :
  App.history (App.handle e st) = App.history st ∨
  (∃ newItem, App.history (App.handle e st) = take 20 (newItem :: App.history st)) ∨
  (∃ id, App.history (App.handle e st)
         = filter (fun item => QuizHistoryItem.id item ≠ id) (App.history st)).
Proof.
  destruct e as [v | c f d [m | [r | w Hw]] | id | item | ua |]; cbn [App.handle].
  - by left.
  - by left.
  - right. left. by eexists.
  - by left.
  - right. right. by exists id.
  - by left.
  - unfold App.handleQuizComplete. destruct (App.quizResult _ _); by left.
  - by left.
Qed.

(** X21: no sequence of handler calls makes a history of at most 20
    entries longer than 20; and whatever its length before, the history
    after a save has the smaller of 20 and one more than before. *)
Theorem history_never_exceeds_20 (es : list App.event) (st : App.state) :
  (length (App.history st) ≤ 20 → length (App.history (App.run es st)) ≤ 20) ∧
  (∀ c fileName difficulty questions,
     length (App.history (App.saveToHistory c fileName difficulty questions st))
     = Nat.min 20 (S (length (App.history st)))).
Proof.
  split.
  - revert st. induction es as [| e es IH]; intros st Hst; [exact Hst |].
    cbn [App.run foldl]. apply IH.
    destruct (history_handle_cases e st) as [-> | [[newItem ->] | [id ->]]].
    + exact Hst.
    + rewrite length_take. lia.
    + pose proof (length_filter (fun item => QuizHistoryItem.id item ≠ id) (App.history st)).
      lia.
  - intros c fileName difficulty questions.
    unfold App.saveToHistory, App.setItem, App.setHistory. cbn [App.history].
    rewrite length_take. cbn [length]. reflexivity.
Qed.

Lemma handle_keeps_sync (e : App.event) (st : App.state) :
  App.localStorage st !! "exam_simulator_history"
    = Some (JS.JSON_stringify (js_history (App.history st))) →
  App.localStorage (App.handle e st) !! "exam_simulator_history"
    = Some (JS.JSON_stringify (js_history (App.history (App.handle e st)))).
Proof.
  intros Hst.
  destruct e as [v | c f d [m | [r | w Hw]] | id | item | ua |]; cbn [App.handle];
    try exact Hst.
  - unfold App.handleSaveSettings, App.setItem. cbn [App.localStorage App.history].
    by rewrite lookup_insert_ne.
  - unfold App.handleGenerateQuiz, App.saveToHistory, App.setItem.
    cbn [App.localStorage App.history App.setAppState]. apply lookup_insert_eq.
  - unfold App.handleDeleteHistory, App.setItem.
    cbn [App.localStorage App.history]. apply lookup_insert_eq.
  - unfold App.handleQuizComplete. by destruct (App.quizResult _ _).
Qed.

Lemma handle_keeps_settings_sync (e : App.event) (st : App.state) :
  App.localStorage st !! "exam_simulator_settings"
    = Some (JS.JSON_stringify (App.aiSettings st)) →
  App.localStorage (App.handle e st) !! "exam_simulator_settings"
    = Some (JS.JSON_stringify (App.aiSettings (App.handle e st))).
Proof.
  intros Hst.
  destruct e as [v | c f d [m | [r | w Hw]] | id | item | ua |]; cbn [App.handle];
    try exact Hst.
  - unfold App.handleSaveSettings, App.setItem. cbn [App.localStorage App.aiSettings].
    apply lookup_insert_eq.
  - unfold App.handleGenerateQuiz, App.saveToHistory, App.setItem.
    cbn [App.localStorage App.aiSettings App.setAppState]. by rewrite lookup_insert_ne.
  - unfold App.handleDeleteHistory, App.setItem.
    cbn [App.localStorage App.aiSettings]. by rewrite lookup_insert_ne.
  - unfold App.handleQuizComplete. by destruct (App.quizResult _ _).
Qed.

(** X22: once the stored history is the text of the history in memory,
    it stays so under every sequence of handler calls; and so for the
    stored settings and the settings in memory. *)
Theorem storage_stays_in_sync (es : list App.event) (st : App.state) :
  (App.localStorage st !! "exam_simulator_history"
     = Some (JS.JSON_stringify (js_history (App.history st))) →
   App.localStorage (App.run es st) !! "exam_simulator_history"
     = Some (JS.JSON_stringify (js_history (App.history (App.run es st))))) ∧
  (App.localStorage st !! "exam_simulator_settings"
     = Some (JS.JSON_stringify (App.aiSettings st)) →
   App.localStorage (App.run es st) !! "exam_simulator_settings"
     = Some (JS.JSON_stringify (App.aiSettings (App.run es st)))).
Proof.
  split; revert st; induction es as [| e es IH]; intros st Hst; try exact Hst;
    cbn [App.run foldl]; apply IH.
  - by apply handle_keeps_sync.
  - by apply handle_keeps_settings_sync.
Qed.

Lemma filter_all {A : Type} (P : A → Prop) `{!∀ x, Decision (P x)} (l : list A) :
  Forall P l → filter P l = l.
Proof.
  induction 1 as [| x l Hx Hl IH]; [done |].
  rewrite filter_cons, decide_True by done. by rewrite IH.
Qed.

Lemma filter_twice {A : Type} (P Q : A → Prop) `{!∀ x, Decision (P x)}
    `{!∀ x, Decision (Q x)} (l : list A) :
  filter P (filter Q l) = filter Q (filter P l).
Proof.
  induction l as [| x l IH]; [done |].
  rewrite !(filter_cons _ x l).
  destruct (decide (Q x)) as [HQ | HQ], (decide (P x)) as [HP | HP];
    rewrite ?filter_cons, ?decide_True, ?decide_False by done; by rewrite IH.
Qed.

(** X23: when no entry of the history has the new entry's identifier,
    saving and then deleting by that identifier leaves the 19 newest of
    the old entries: the old history itself when it had fewer than 20. *)
Theorem save_then_delete (c : App.clock) (fileName : string) (difficulty : Difficulty)
    (questions : list Question.t) (st : App.state) :
  Forall (fun item => QuizHistoryItem.id item ≠ pretty (App.now c)) (App.history st) →
  App.history
    (App.handleDeleteHistory (pretty (App.now c))
       (App.saveToHistory c fileName difficulty questions st))
  = take 19 (App.history st) ∧
  (length (App.history st) < 20 →
   App.history
     (App.handleDeleteHistory (pretty (App.now c))
        (App.saveToHistory c fileName difficulty questions st))
   = App.history st).
Proof.
  intros Hfresh.
  assert (App.history
            (App.handleDeleteHistory (pretty (App.now c))
               (App.saveToHistory c fileName difficulty questions st))
          = take 19 (App.history st)) as E.
  { unfold App.handleDeleteHistory, App.saveToHistory, App.setItem, App.setHistory.
    cbn [App.history take]. rewrite filter_cons, decide_False by (cbn; tauto).
    apply filter_all. by apply Forall_take. }
  split; [exact E |]. intros Hl. rewrite E. apply take_ge. lia.
Qed.

(** X24: deleting an identifier twice is deleting it once, deletions of
    two identifiers commute (as states, storage included), and deleting
    an identifier no entry has leaves the history as it was. *)
Theorem delete_idempotent_and_commutes (a b : string) (st : App.state) :
  App.handleDeleteHistory a (App.handleDeleteHistory a st) = App.handleDeleteHistory a st ∧
  App.handleDeleteHistory a (App.handleDeleteHistory b st)
  = App.handleDeleteHistory b (App.handleDeleteHistory a st) ∧
  (Forall (fun item => QuizHistoryItem.id item ≠ a) (App.history st) →
   App.history (App.handleDeleteHistory a st) = App.history st).
Proof.
  unfold App.handleDeleteHistory, App.setItem, App.setHistory.
  cbn [App.history App.localStorage App.appState App.questions App.result App.aiSettings].
  split; [| split].
  - rewrite insert_insert_eq. rewrite (filter_all _ (filter _ _)); [done |].
    apply Forall_forall. intros item Hin. by apply list_elem_of_filter in Hin as [? _].
  - rewrite !insert_insert_eq. by rewrite filter_twice.
  - intros H. by apply filter_all.
Qed.

(** X25: after a successful generation the first history entry holds the
    quiz, its file name and its difficulty; and after a reset, which
    empties the question list, opening that entry brings the same
    questions back, in the quiz state, with the history as it was. *)
Theorem generated_quiz_is_retakable (c : App.clock) (fileName : string)
    (difficulty : Difficulty) (response : GeneratedQuizResponse.t) (st : App.state) :
  let st1 := App.handleGenerateQuiz c fileName difficulty (inr response) st in
  ∃ item,
    App.history st1 !! 0 = Some item ∧
    QuizHistoryItem.questions item = App.mapQuestions response ∧
    QuizHistoryItem.fileName item = fileName ∧
    QuizHistoryItem.difficulty item = difficulty ∧
    App.questions (App.handleReset st1) = [] ∧
    App.questions (App.handleLoadFromHistory item (App.handleReset st1))
    = App.questions st1 ∧
    App.appState (App.handleLoadFromHistory item (App.handleReset st1)) = QUIZ ∧
    App.history (App.handleLoadFromHistory item (App.handleReset st1)) = App.history st1.
Proof.
  cbn zeta. eexists. split; [reflexivity |]. by repeat split.
Qed.

(** X16 with a stored text that does not parse, and with a stored [null] *)
Lemma loadSettings_degrades_to_defaults_witness :
  (({["exam_simulator_settings" := JS.Garbled]} : gmap string JS.text)
     !! "exam_simulator_settings" = Some JS.Garbled ∧
   App.loadSettings (App.initial {["exam_simulator_settings" := JS.Garbled]})
   = App.initial {["exam_simulator_settings" := JS.Garbled]}) ∧
  (JS.spread JS.Null = ∅ ∧
   App.aiSettings
     (App.loadSettings
        (App.initial {["exam_simulator_settings" := JS.JSON_stringify JS.Null]}))
   = js_settings App.DEFAULT_SETTINGS).
Proof.
  split.
  - split; [by vm_compute |].
    apply (proj1 (loadSettings_degrades_to_defaults
                    {["exam_simulator_settings" := JS.Garbled]})).
    right. right. by vm_compute.
  - split; [reflexivity |].
    apply (proj2 (loadSettings_degrades_to_defaults
                    {["exam_simulator_settings" := JS.JSON_stringify JS.Null]})
             JS.Null); [by vm_compute | reflexivity].
Defined.

(** X17 for the [gemini] field, with [oldShape] stored *)
Lemma loaded_settings_are_complete_witness :
  "gemini" ∈ ["provider"; "gemini"; "openai"] ∧
  is_Some
    (JS.get
       (App.aiSettings
          (App.loadSettings
             (App.initial {["exam_simulator_settings" := JS.JSON_stringify oldShape]})))
       "gemini").
Proof.
  assert ("gemini" ∈ ["provider"; "gemini"; "openai"]) as H.
  { apply list_elem_of_further, list_elem_of_here. }
  split; [exact H |].
  apply (loaded_settings_are_complete
           {["exam_simulator_settings" := JS.JSON_stringify oldShape]} "gemini" H).
Defined.

(** X19 at the default settings *)
Lemma handleChange_sets_one_field_witness :
  JS.get (SettingsModal.handleChange "provider" "openai"
            (js_settings App.DEFAULT_SETTINGS)) "provider" = Some (JS.Str "openai") ∧
  JS.opt_get
    (JS.get (SettingsModal.handleChange "geminiApiKey" "AIzaUser"
               (js_settings App.DEFAULT_SETTINGS)) "gemini") "apiKey"
  = Some (JS.Str "AIzaUser") ∧
  ("baseUrl" ≠ "provider" ∧ "baseUrl" ≠ "geminiApiKey") ∧
  JS.opt_get
    (JS.get (SettingsModal.handleChange "baseUrl" "http://localhost:11434/v1"
               (js_settings App.DEFAULT_SETTINGS)) "openai") "baseUrl"
  = Some (JS.Str "http://localhost:11434/v1") ∧
  JS.opt_get
    (JS.get (SettingsModal.handleChange "baseUrl" "http://localhost:11434/v1"
               (js_settings App.DEFAULT_SETTINGS)) "openai") "model"
  = Some (JS.Str "gpt-4o").
Proof.
  split; [| split; [| split; [| split]]].
  - apply (proj1 (handleChange_sets_one_field "provider" "openai"
                    (js_settings App.DEFAULT_SETTINGS))). reflexivity.
  - apply (proj1 (proj2 (handleChange_sets_one_field "geminiApiKey" "AIzaUser"
                           (js_settings App.DEFAULT_SETTINGS)))). reflexivity.
  - split; discriminate.
  - apply (proj1 (proj2 (proj2 (handleChange_sets_one_field "baseUrl"
                                  "http://localhost:11434/v1"
                                  (js_settings App.DEFAULT_SETTINGS))))); discriminate.
  - rewrite (proj2 (proj1 (proj2 (proj2 (handleChange_sets_one_field "baseUrl"
                                           "http://localhost:11434/v1"
                                           (js_settings App.DEFAULT_SETTINGS))))
                      ltac:(discriminate) ltac:(discriminate)) "model")
      by discriminate.
    reflexivity.
Defined.

(** X20 at the default settings *)
Lemma form_edits_reach_the_service_witness :
  "AIzaUser" ≠ "" ∧
  Service.geminiApiKey (Some "AIzaEnv")
    (Some (SettingsModal.handleChange "geminiApiKey" "AIzaUser"
             (js_settings App.DEFAULT_SETTINGS)))
  = Some (JS.Str "AIzaUser").
Proof.
  split; [discriminate |].
  apply (proj1 (form_edits_reach_the_service "AIzaUser"
                  (js_settings App.DEFAULT_SETTINGS) (Some "AIzaEnv"))).
  discriminate.
Defined.

(** X21 from the full history [twenty] *)
Lemma history_never_exceeds_20_witness :
  length (App.history fullApp) ≤ 20 ∧
  length
    (App.history
       (App.run [App.GenerateQuiz noon "a.pdf" EASY (inr threeOptions);
                 App.DeleteHistory "7";
                 App.GenerateQuiz noon "b.pdf" HARD (inr threeOptions);
                 App.GenerateQuiz noon "c.pdf" HARD (inl "Failed to fetch")]
          fullApp))
  ≤ 20.
Proof.
  assert (length (App.history fullApp) ≤ 20) as H by (cbn; lia).
  split; [exact H |].
  apply (proj1 (history_never_exceeds_20 _ fullApp)). exact H.
Defined.

(** X22 after a first save of a quiz and of settings *)
Lemma storage_stays_in_sync_witness :
  let st :=
    App.handleSaveSettings ollama
      (App.saveToHistory noon "a.pdf" EASY [] (App.initial ∅)) in
  let es := [App.DeleteHistory "1730000000000"; App.Reset;
             App.GenerateQuiz noon "b.pdf" HARD (inr threeOptions)] in
  App.localStorage st !! "exam_simulator_history"
    = Some (JS.JSON_stringify (js_history (App.history st))) ∧
  App.localStorage st !! "exam_simulator_settings"
    = Some (JS.JSON_stringify (App.aiSettings st)) ∧
  App.localStorage (App.run es st) !! "exam_simulator_history"
    = Some (JS.JSON_stringify (js_history (App.history (App.run es st)))) ∧
  App.localStorage (App.run es st) !! "exam_simulator_settings"
    = Some (JS.JSON_stringify (App.aiSettings (App.run es st))).
Proof.
  cbn zeta. split; [reflexivity |]. split; [reflexivity |]. split.
  - apply (proj1 (storage_stays_in_sync _ _)). reflexivity.
  - apply (proj2 (storage_stays_in_sync _ _)). reflexivity.
Defined.

(** X23 on the full history [twenty], whose oldest entry does not come
    back, and on the three entries of [shortApp], which do *)
Lemma save_then_delete_witness :
  (length (App.history fullApp) = 20 ∧
   Forall (fun item => QuizHistoryItem.id item ≠ pretty (App.now noon))
     (App.history fullApp) ∧
   App.history
     (App.handleDeleteHistory (pretty (App.now noon))
        (App.saveToHistory noon "a.pdf" EASY [] fullApp))
   = take 19 (App.history fullApp) ∧
   length
     (App.history
        (App.handleDeleteHistory (pretty (App.now noon))
           (App.saveToHistory noon "a.pdf" EASY [] fullApp))) = 19) ∧
  (length (App.history shortApp) = 3 ∧
   Forall (fun item => QuizHistoryItem.id item ≠ pretty (App.now noon))
     (App.history shortApp) ∧
   length (App.history shortApp) < 20 ∧
   App.history
     (App.handleDeleteHistory (pretty (App.now noon))
        (App.saveToHistory noon "a.pdf" EASY [] shortApp))
   = App.history shortApp).
Proof.
  assert (Forall (fun item => QuizHistoryItem.id item ≠ pretty (App.now noon))
            (App.history fullApp)) as Hfull.
  { apply Forall_forall. intros item Hin. vm_compute in Hin.
    repeat (apply elem_of_cons in Hin as [-> | Hin]; [discriminate |]).
    by apply elem_of_nil in Hin. }
  assert (Forall (fun item => QuizHistoryItem.id item ≠ pretty (App.now noon))
            (App.history shortApp)) as Hshort.
  { apply Forall_forall. intros item Hin. vm_compute in Hin.
    repeat (apply elem_of_cons in Hin as [-> | Hin]; [discriminate |]).
    by apply elem_of_nil in Hin. }
  split.
  - split; [reflexivity |]. split; [exact Hfull |].
    pose proof (proj1 (save_then_delete noon "a.pdf" EASY [] fullApp Hfull)) as E.
    split; [exact E |]. rewrite E. reflexivity.
  - split; [reflexivity |]. split; [exact Hshort |]. split; [cbn; lia |].
    apply (proj2 (save_then_delete noon "a.pdf" EASY [] shortApp Hshort)).
    cbn; lia.
Defined.

(** X24 on the full history [twenty]: the entry ["7"] deleted twice, the
    entries ["7"] and ["3"] deleted in both orders, and an identifier no
    entry has *)
Lemma delete_idempotent_and_commutes_witness :
  (App.handleDeleteHistory "7" (App.handleDeleteHistory "7" fullApp)
   = App.handleDeleteHistory "7" fullApp ∧
   length (App.history (App.handleDeleteHistory "7" fullApp)) = 19) ∧
  (App.handleDeleteHistory "7" (App.handleDeleteHistory "3" fullApp)
   = App.handleDeleteHistory "3" (App.handleDeleteHistory "7" fullApp) ∧
   length (App.history (App.handleDeleteHistory "3" (App.handleDeleteHistory "7" fullApp)))
   = 18) ∧
  (length (App.history fullApp) = 20 ∧
   Forall (fun item => QuizHistoryItem.id item ≠ "1730000000000") (App.history fullApp) ∧
   App.history (App.handleDeleteHistory "1730000000000" fullApp) = App.history fullApp).
Proof.
  split; [| split].
  - split; [| by vm_compute].
    apply (proj1 (delete_idempotent_and_commutes "7" "3" fullApp)).
  - split; [| by vm_compute].
    apply (proj1 (proj2 (delete_idempotent_and_commutes "7" "3" fullApp))).
  - assert (Forall (fun item => QuizHistoryItem.id item ≠ "1730000000000")
              (App.history fullApp)) as H.
    { apply Forall_forall. intros item Hin. vm_compute in Hin.
      repeat (apply elem_of_cons in Hin as [-> | Hin]; [discriminate |]).
      by apply elem_of_nil in Hin. }
    split; [reflexivity |]. split; [exact H |].
    apply (proj2 (proj2 (delete_idempotent_and_commutes "1730000000000" "7" fullApp))).
    exact H.
Defined.

End AppExtras.


(** ** Scoring and the results view *)

Section ScoreExtras.
Import Scoring.

Lemma reduce_score_none (questions : list Question.t) (userAnswers : list Z) :
  ∀ idx acc,
    App.reduce_score questions idx userAnswers acc = None ↔
    userAnswers ≠ [] ∧ length questions < idx + length userAnswers.
Proof.
  induction userAnswers as [| answer rest IH]; intros idx acc; cbn [App.reduce_score length].
  - split; [done | by intros [? _]].
  - destruct (questions !! idx) as [q |] eqn:Hq.
    + apply lookup_lt_Some in Hq. rewrite IH. split.
      * intros [_ H]. split; [done | lia].
      * intros [_ H]. split; [| lia]. destruct rest; [cbn in H; lia | done].
    + apply lookup_ge_None in Hq. split; [| done]. intros _. split; [done | lia].
Qed.

Lemma reduce_score_bound (questions : list Question.t) (userAnswers : list Z) :
  ∀ idx acc score,
    App.reduce_score questions idx userAnswers acc = Some score →
    acc ≤ score ≤ acc + length userAnswers.
Proof.
  induction userAnswers as [| answer rest IH]; intros idx acc score; cbn [App.reduce_score length].
  - intros [= <-]. lia.
  - destruct (questions !! idx) as [q |]; [| done].
    intros H%IH. destruct (_ =? _)%Z; lia.
Qed.

(** X26: the scoring throws exactly when there are more answers than
    questions; otherwise the score is at most the number of answers and
    at most the total, which is the number of questions. *)
Theorem quizResult_bounds (questions : list Question.t) (userAnswers : list Z) :
  (App.quizResult questions userAnswers = None ↔ length questions < length userAnswers) ∧
  (∀ r, App.quizResult questions userAnswers = Some r →
        QuizResult.score r ≤ length userAnswers ∧
        QuizResult.score r ≤ QuizResult.total r ∧
        QuizResult.total r = length questions).
Proof.
  assert (App.quizResult questions userAnswers = None ↔
          length questions < length userAnswers) as Hnone.
  { unfold App.quizResult.
    destruct (App.reduce_score questions 0 userAnswers 0) as [s |] eqn:E.
    - split; [done |]. intros Hl. exfalso.
      assert (App.reduce_score questions 0 userAnswers 0 = None) as E'.
      { apply reduce_score_none. split; [| lia]. destruct userAnswers; [cbn in Hl; lia | done]. }
      congruence.
    - split; [| done]. intros _. apply reduce_score_none in E as [_ E]. lia. }
  split; [exact Hnone |].
  intros r Hr.
  assert (¬ length questions < length userAnswers) as Hl.
  { intros H%Hnone. congruence. }
  unfold App.quizResult in Hr.
  destruct (App.reduce_score questions 0 userAnswers 0) as [s |] eqn:E; [| done].
  injection Hr as <-. cbn. apply reduce_score_bound in E. lia.
Qed.

Lemma filter_none {A : Type} (P : A → Prop) `{!∀ x, Decision (P x)} (l : list A) :
  Forall (fun x => ¬ P x) l → filter P l = [].
Proof.
  induction 1 as [| x l Hx Hl IH]; [done |].
  by rewrite filter_cons, decide_False.
Qed.

Lemma review_count (questions : list Question.t) (userAnswers : list Z) (score total : nat) :
  length (filter (fun b => b = true)
            (ResultsView.review (QuizResult.mk score total userAnswers questions)))
  = length (filter (fun i => correctAt questions userAnswers i = true)
              (seq 0 (length questions))).
Proof.
  unfold ResultsView.review. cbn [QuizResult.questions].
  set (r := QuizResult.mk score total userAnswers questions).
  assert (∀ (l : list Question.t) (k : nat),
            (∀ i q, l !! i = Some q → questions !! (k + i) = Some q) →
            length (filter (fun b => b = true)
                      (imap (fun i => ResultsView.isCorrect r (k + i)) l))
            = length (filter (fun i => correctAt questions userAnswers i = true)
                        (seq k (length l)))) as H.
  { induction l as [| q l IH]; intros k Hl; [done |].
    cbn [imap length seq]. rewrite !filter_cons.
    assert (ResultsView.isCorrect r (k + 0) q = correctAt questions userAnswers k) as Hq.
    { unfold ResultsView.isCorrect, correctAt. rewrite Nat.add_0_r. cbn.
      specialize (Hl 0 q eq_refl). rewrite Nat.add_0_r in Hl. rewrite Hl.
      by destruct (userAnswers !! k). }
    rewrite Hq.
    assert (length (filter (fun b => b = true)
                      (imap ((fun i => ResultsView.isCorrect r (k + i)) ∘ S) l))
            = length (filter (fun i => correctAt questions userAnswers i = true)
                        (seq (S k) (length l)))) as Hrest.
    { rewrite <- (IH (S k)).
      - f_equal. f_equal. apply imap_ext. intros i x _. cbn. f_equal. lia.
      - intros i q' Hi. replace (S k + i) with (k + S i) by lia. by apply Hl. }
    destruct (decide (correctAt questions userAnswers k = true)); cbn [length];
      by rewrite Hrest. }
  specialize (H questions 0). cbn in H. apply H. done.
Qed.

(** X27: for every result the scoring builds, the detailed review has
    one badge per question, the number of its Correct badges is the
    score, and the chart's Incorrect slice is the total minus the score,
    which is not negative. *)
Theorem review_agrees_with_score (questions : list Question.t) (userAnswers : list Z)
    (r : QuizResult.t) :
  App.quizResult questions userAnswers = Some r →
  length (ResultsView.review r) = QuizResult.total r ∧
  length (filter (fun b => b = true) (ResultsView.review r)) = QuizResult.score r ∧
  ResultsView.data r
  = [("Correct", Z.of_nat (QuizResult.score r));
     ("Incorrect", Z.of_nat (QuizResult.total r - QuizResult.score r))].
Proof.
  intros Hr.
  assert (length userAnswers ≤ length questions) as Hl.
  { destruct (Nat.le_gt_cases (length userAnswers) (length questions)) as [? | Hgt]; [done |].
    assert (userAnswers ≠ []) as Hne by (destruct userAnswers; [cbn in Hgt; lia | done]).
    unfold App.quizResult in Hr.
    rewrite (proj2 (reduce_score_none questions userAnswers 0 0)) in Hr; [done |].
    split; [done | lia]. }
  unfold App.quizResult in Hr.
  rewrite (reduce_score_count questions userAnswers userAnswers 0 0) in Hr by done.
  injection Hr as <-. cbn [QuizResult.total QuizResult.score].
  split; [| split].
  - unfold ResultsView.review. by rewrite length_imap.
  - rewrite review_count.
    replace (length questions)
      with (length userAnswers + (length questions - length userAnswers)) at 1 by lia.
    rewrite seq_app, filter_app, length_app.
    rewrite (filter_none _ (seq (0 + length userAnswers) _)); [cbn; lia |].
    apply Forall_forall. intros i Hi%elem_of_seq. unfold correctAt.
    rewrite (lookup_ge_None_2 userAnswers i) by lia. done.
  - unfold ResultsView.data. cbn [QuizResult.total QuizResult.score].
    pose proof (length_filter (fun i => correctAt questions userAnswers i = true)
                  (seq 0 (length userAnswers))) as Hf.
    rewrite length_seq in Hf. do 3 f_equal. lia.
Qed.

(** X26 with four answers for three questions, and with three *)
Lemma quizResult_bounds_witness :
  length threeQuestions < length [1; 2; 0; 3]%Z ∧
  App.quizResult threeQuestions [1; 2; 0; 3]%Z = None ∧
  App.quizResult threeQuestions [1; 3; 0]%Z
    = Some (QuizResult.mk 2 3 [1; 3; 0]%Z threeQuestions) ∧
  2 ≤ length [1; 3; 0]%Z ∧ 2 ≤ 3.
Proof.
  split; [cbn; lia |]. split.
  - apply (proj2 (proj1 (quizResult_bounds threeQuestions [1; 2; 0; 3]%Z))). cbn; lia.
  - split; [reflexivity |].
    destruct (proj2 (quizResult_bounds threeQuestions [1; 3; 0]%Z)
                (QuizResult.mk 2 3 [1; 3; 0]%Z threeQuestions) eq_refl) as (H1 & H2 & _).
    split; [exact H1 | exact H2].
Defined.

(** X27 for the answers 1, 3, 0 to [threeQuestions] *)
Lemma review_agrees_with_score_witness :
  App.quizResult threeQuestions [1; 3; 0]%Z
    = Some (QuizResult.mk 2 3 [1; 3; 0]%Z threeQuestions) ∧
  ResultsView.review (QuizResult.mk 2 3 [1; 3; 0]%Z threeQuestions) = [true; false; true] ∧
  length (filter (fun b => b = true)
            (ResultsView.review (QuizResult.mk 2 3 [1; 3; 0]%Z threeQuestions))) = 2.
Proof.
  split; [reflexivity |]. split; [reflexivity |].
  apply (proj1 (proj2 (review_agrees_with_score threeQuestions [1; 3; 0]%Z
                         (QuizResult.mk 2 3 [1; 3; 0]%Z threeQuestions) eq_refl))).
Defined.

End ScoreExtras.

(** ** The quiz as its buttons drive it *)

Section SessionExtras.
Import QuizInterface.

Lemma handle_invariant (questions : list Question.t) (e : event) (s : state) :
  length (selectedAnswers s) = length questions →
  currentIndex s < length questions →
  showExplanation s = hasAnsweredCurrent s →
  (∀ i, currentIndex s < i → i < length questions →
        selectedAnswers s !! i = Some (-1)%Z) →
  match handle questions e s with
  | Continue s' =>
      length (selectedAnswers s') = length questions ∧
      currentIndex s' < length questions ∧
      showExplanation s' = hasAnsweredCurrent s' ∧
      (∀ i, currentIndex s' < i → i < length questions →
            selectedAnswers s' !! i = Some (-1)%Z)
  | Complete userAnswers => userAnswers = selectedAnswers s
  end.
Proof.
  intros Hlen Hidx Hshow Hrest. destruct e as [k |]; cbn [handle].
  - destruct (handleOptionSelect_cases k s) as [[_ ->] | [Hcur ->]]; [done |].
    cbn [selectedAnswers currentIndex showExplanation].
    split; [by rewrite length_insert |]. split; [done |]. split.
    + unfold hasAnsweredCurrent. cbn [selectedAnswers currentIndex].
      rewrite list_lookup_insert_eq by lia.
      by destruct (Z.eqb_spec (Z.of_nat k) (-1)); [lia |].
    + intros i Hi Hn. rewrite list_lookup_insert_ne by lia. by apply Hrest.
  - unfold handleNext, isLastQuestion.
    destruct (Z.eqb_spec (Z.of_nat (currentIndex s)) (Z.of_nat (length questions) - 1));
      [done |].
    cbn [selectedAnswers currentIndex showExplanation].
    split; [done |]. split; [lia |]. split.
    + unfold hasAnsweredCurrent. cbn [selectedAnswers currentIndex].
      rewrite Hrest by lia. reflexivity.
    + intros i Hi Hn. apply Hrest; lia.
Qed.

(** X28: for a question list that is not empty and any sequence of
    handler calls from the initial state: the answer list keeps the
    length of the question list, the position stays below that length,
    the explanation is shown exactly when the current question has a
    recorded answer, and every question after the current one is still
    unanswered; the list handed to [onComplete] has that length too. *)
Theorem session_invariants (questions : list Question.t) (es : list event) :
  questions ≠ [] →
  match run questions es (initial questions) with
  | Continue s =>
      length (selectedAnswers s) = length questions ∧
      currentIndex s < length questions ∧
      showExplanation s = hasAnsweredCurrent s ∧
      (∀ i, currentIndex s < i → i < length questions →
            selectedAnswers s !! i = Some (-1)%Z)
  | Complete userAnswers => length userAnswers = length questions
  end.
Proof.
  intros Hne.
  assert (∀ s,
            length (selectedAnswers s) = length questions →
            currentIndex s < length questions →
            showExplanation s = hasAnsweredCurrent s →
            (∀ i, currentIndex s < i → i < length questions →
                  selectedAnswers s !! i = Some (-1)%Z) →
            match run questions es s with
            | Continue s' =>
                length (selectedAnswers s') = length questions ∧
                currentIndex s' < length questions ∧
                showExplanation s' = hasAnsweredCurrent s' ∧
                (∀ i, currentIndex s' < i → i < length questions →
                      selectedAnswers s' !! i = Some (-1)%Z)
            | Complete userAnswers => length userAnswers = length questions
            end) as Hrun.
  { induction es as [| e es IH]; intros s Hlen Hidx Hshow Hrest; [done |].
    cbn [run]. pose proof (handle_invariant questions e s Hlen Hidx Hshow Hrest) as H.
    destruct (handle questions e s) as [s' | ua].
    - destruct H as (? & ? & ? & ?). by apply IH.
    - by subst. }
  apply Hrun; unfold initial; cbn [selectedAnswers currentIndex showExplanation].
  - apply length_replicate.
  - destruct questions; [done | cbn; lia].
  - unfold hasAnsweredCurrent. cbn [selectedAnswers currentIndex].
    rewrite lookup_replicate_2 by (destruct questions; [done | cbn; lia]). reflexivity.
  - intros i _ Hi. by apply lookup_replicate_2.
Qed.

(** X29: whatever is clicked, in whatever order, the answers a session
    hands to [onComplete] are as many as the questions, and each is the
    index of an option of its question: no question is left unanswered
    when the quiz is driven through its buttons. *)
Theorem ui_completed_answers_are_valid (questions : list Question.t) (es : list event)
    (userAnswers : list Z) :
  uiRun questions es (initial questions) = Complete userAnswers →
  length userAnswers = length questions ∧
  ∀ i a q, userAnswers !! i = Some a → questions !! i = Some q →
           (0 ≤ a < Z.of_nat (length (Question.options q)))%Z.
Proof.
  assert (∀ s,
            length (selectedAnswers s) = length questions →
            (∀ i a, selectedAnswers s !! i = Some a →
                (a = (-1)%Z ∧ currentIndex s ≤ i) ∨
                (∃ q, questions !! i = Some q ∧
                      (0 ≤ a < Z.of_nat (length (Question.options q)))%Z ∧
                      i ≤ currentIndex s)) →
            uiRun questions es s = Complete userAnswers →
            length userAnswers = length questions ∧
            ∀ i a q, userAnswers !! i = Some a → questions !! i = Some q →
                     (0 ≤ a < Z.of_nat (length (Question.options q)))%Z) as Hrun.
  { induction es as [| e es IH]; intros s Hlen Hinv; [done |].
    cbn [uiRun]. pose proof (click_invariant questions e s Hlen Hinv) as H.
    destruct (click questions e s) as [s' | ua].
    - destruct H as [? ?]. by apply IH.
    - intros [= <-]. exact H. }
  apply Hrun; unfold initial; cbn [selectedAnswers currentIndex].
  - apply length_replicate.
  - intros i a [-> _]%lookup_replicate_1. left. split; [done | lia].
Qed.

(** X30: the option buttons and the Next button are never enabled
    together; while the current question has at least one option, one of
    them is; and on a question without options that has no answer, no
    click changes anything, ever. *)
Theorem buttons_exclusive_and_stuck (questions : list Question.t) (s : state) :
  (∀ idx, optionEnabled questions s idx && nextEnabled s = false) ∧
  (∀ q, currentQuestion questions s = Some q →
        Question.options q ≠ [] →
        optionEnabled questions s 0 = true ∨ nextEnabled s = true) ∧
  (∀ q, currentQuestion questions s = Some q →
        Question.options q = [] →
        hasAnsweredCurrent s = false →
        ∀ es, uiRun questions es s = Continue s).
Proof.
  split; [| split].
  - intros idx. unfold optionEnabled, nextEnabled.
    destruct (currentQuestion questions s); [| done].
    destruct (hasAnsweredCurrent s); [| by rewrite andb_false_r].
    cbn. by rewrite andb_false_r.
  - intros q Hq Hne. unfold optionEnabled, nextEnabled. rewrite Hq.
    destruct (hasAnsweredCurrent s); [by right | left].
    rewrite bool_decide_eq_true_2; [done |].
    destruct (Question.options q); [done | cbn; lia].
  - intros q Hq Hnil Hun es. induction es as [| e es IH]; [done |].
    cbn [uiRun]. destruct e as [k |]; cbn [click].
    + unfold optionEnabled. rewrite Hq, Hnil. cbn [length].
      rewrite bool_decide_eq_false_2 by lia. exact IH.
    + unfold nextEnabled. rewrite Hun. exact IH.
Qed.

(** X28 on [threeQuestions], skipping the first question *)
Lemma session_invariants_witness :
  threeQuestions ≠ [] ∧
  run threeQuestions [Next; OptionSelect 2] (initial threeQuestions)
    = Continue (mk 1 [-1; 2; -1]%Z true) ∧
  length (selectedAnswers (mk 1 [-1; 2; -1]%Z true)) = length threeQuestions ∧
  currentIndex (mk 1 [-1; 2; -1]%Z true) < length threeQuestions.
Proof.
  split; [discriminate |]. split; [reflexivity |].
  pose proof (session_invariants threeQuestions [Next; OptionSelect 2]
                ltac:(discriminate)) as H.
  cbn in H. destruct H as (H1 & H2 & _). split; [exact H1 | exact H2].
Defined.

(** X29 on [threeQuestions], with clicks on disabled and missing buttons
    in between *)
Lemma ui_completed_answers_are_valid_witness :
  uiRun threeQuestions
    [Next; OptionSelect 9; OptionSelect 1; OptionSelect 2; Next;
     OptionSelect 3; Next; Next; OptionSelect 0; Next]
    (initial threeQuestions)
  = Complete [1; 3; 0]%Z ∧
  length [1; 3; 0]%Z = length threeQuestions.
Proof.
  split; [reflexivity |].
  apply (proj1 (ui_completed_answers_are_valid threeQuestions
                  [Next; OptionSelect 9; OptionSelect 1; OptionSelect 2; Next;
                   OptionSelect 3; Next; Next; OptionSelect 0; Next]
                  [1; 3; 0]%Z eq_refl)).
Defined.

(** X30 on [noOptions], at its second question *)
Lemma buttons_exclusive_and_stuck_witness :
  uiRun noOptions [OptionSelect 1; Next] (initial noOptions)
    = Continue (mk 1 [1; -1; -1]%Z false) ∧
  currentQuestion noOptions (mk 1 [1; -1; -1]%Z false) = Some (Question.mk 1 "Q2" [] 0 "E2") ∧
  hasAnsweredCurrent (mk 1 [1; -1; -1]%Z false) = false ∧
  uiRun noOptions [OptionSelect 0; Next; OptionSelect 3; Next]
    (mk 1 [1; -1; -1]%Z false)
  = Continue (mk 1 [1; -1; -1]%Z false) ∧
  (Question.options (Question.mk 0 "Q1" ["a"; "b"; "c"; "d"] 1 "E1") ≠ [] ∧
   (optionEnabled noOptions (initial noOptions) 0 = true ∨
    nextEnabled (initial noOptions) = true)).
Proof.
  split; [reflexivity |]. split; [reflexivity |]. split; [reflexivity |]. split.
  - apply (proj2 (proj2 (buttons_exclusive_and_stuck noOptions (mk 1 [1; -1; -1]%Z false)))
             (Question.mk 1 "Q2" [] 0 "E2") eq_refl eq_refl eq_refl).
  - split; [discriminate |].
    apply (proj1 (proj2 (buttons_exclusive_and_stuck noOptions (initial noOptions)))
             (Question.mk 0 "Q1" ["a"; "b"; "c"; "d"] 1 "E1") eq_refl).
    discriminate.
Defined.

End SessionExtras.
